(** * WMS-Python: the stock-ledger transaction engine

    A shallow embedding of [InventoryService]
    (src/application/services.py) over the two repositories it calls
    (src/infrastructure/repositories.py), with the domain model of
    src/domain/models.py and the exception classes of
    src/domain/exceptions.py.

    Python integers are unbounded, so quantities and identifiers are [Z].
    A raised exception leaves every store write made before it in place,
    so an operation is a function from the world to a world and an
    outcome: the world is threaded through both the returning and the
    raising path.

    The two stores are the tables the SQLite repositories read and
    write, kept as finite maps: [variants] by id, [documents] by id with
    their item rows.  The world also keeps, in order, the calls made on
    the two repositories and the records the engine sends to its logger.
    The database itself does not fail here (no [sqlite3.Error], so no
    [RepositoryError] out of the driver), and what the repositories send
    to their own loggers is not kept.  schema.sql is not among the
    sources; what depends on it (the rowid a table assigns, the cascade
    of a deletion, the default of [created_at]) is marked where it is
    modelled. *)

From Stdlib Require Import ZArith Floats.SpecFloat.
From stdpp Require Import gmap strings list sorting.

Open Scope string_scope.
Open Scope list_scope.
Open Scope Z_scope.

(** ** src/domain/models.py *)

Module Product.

Record t := mk {
  name : string;
  brand : string;
  base_price : spec_float;
  category : option string;
  description : string;
  id : option Z;
  created_at : option string
}.

End Product.

Module Variant.

Record t := mk {
  product_id : Z;
  size : string;
  color : string;
  sku : string;
  stock_qty : Z;
  safety_stock : Z;
  id : option Z
}.

(** [f"{self.size} / {self.color}"] *)
Definition display_name (v : t) : string :=
  size v +:+ " / " +:+ color v.

Definition is_low_stock (v : t) : bool :=
  bool_decide (stock_qty v ≤ safety_stock v).

(** The assignment [variant.stock_qty = q]. *)
Definition set_stock_qty (q : Z) (v : t) : t :=
  mk (product_id v) (size v) (color v) (sku v) q (safety_stock v) (id v).

End Variant.

Module DocumentItem.

Record t := mk {
  variant_id : Z;
  quantity : Z;
  unit_price : spec_float;
  id : option Z;
  variant : option Variant.t
}.

End DocumentItem.

(** [datetime.date] *)
Record date := mk_date { year : Z; month : Z; day : Z }.

Module Document.

Record t := mk {
  doc_type : string;
  doc_date : date;
  items : list DocumentItem.t;
  note : string;
  id : option Z;
  created_at : option string
}.

(** The assignment [document.id = new_doc_id]. *)
Definition set_id (i : Z) (d : t) : t :=
  mk (doc_type d) (doc_date d) (items d) (note d) (Some i) (created_at d).

Definition add_item (item : DocumentItem.t) (d : t) : t :=
  mk (doc_type d) (doc_date d) (items d ++ [item]) (note d) (id d) (created_at d).

End Document.

(** ** src/domain/exceptions.py *)

Inductive ExnClass :=
| DomainError
| RepositoryError
| EntityNotFoundError
| DuplicateEntityError
| BusinessRuleViolation
| OutOfStockError
| AttributeError.


(** The text of every message the engine and the variant repository build
    is an f-string; a message is kept as the template it comes from and
    the values interpolated into it. *)
Inductive Message :=
| MsgDocTypeMustBe (expected : string)
| MsgVariantNotFound (variant_id : Z)
| MsgOutOfStock (display_name : string) (stock need : Z)
| MsgNegativeAfterAdjust (display_name : string)
| MsgDocumentNotFound (doc_id : Z)
| MsgRollbackShort (display_name : string) (current need : Z)
| MsgVariantWithoutId
| MsgVariantRowNotFound (variant_id : Z)
| MsgNoneHasNoAttribute (attr : string).

Record Exn := mk_exn { exn_class : ExnClass; exn_message : Message }.

(** ** The stores *)

(** A row of the [variants] table; the [id] column is the key of the map. *)
Record VariantRow := mk_variant_row {
  row_product_id : Z;
  row_size : string;
  row_color : string;
  row_sku : string;
  row_stock_qty : Z;
  row_safety_stock : Z
}.

(** A row of the [products] table; the [id] column is the key of the map. *)
Record ProductRow := mk_product_row {
  row_name : string;
  row_brand : string;
  row_category : option string;
  row_base_price : spec_float;
  row_description : string;
  row_product_created_at : option string
}.

(** A row of [document_items] as [add_document] writes it, with the rowid
    it was given. *)
Record ItemRow := mk_item_row {
  item_rowid : Z;
  item_variant_id : Z;
  item_quantity : Z;
  item_unit_price : spec_float
}.

(** A row of [documents] together with its [document_items] rows, in the
    order they were inserted. *)
Record DocumentRow := mk_document_row {
  row_doc_type : string;
  row_doc_date : date;
  row_note : string;
  row_created_at : option string;
  row_items : list ItemRow
}.

(** The calls the engine makes on its two repositories, and the records
    it sends to its logger. *)
Inductive StoreCall :=
| GetVariantById (variant_id : Z)
| UpdateVariant (variant : Variant.t)
| AddDocument (document : Document.t)
| GetDocumentById (doc_id : Z)
| DeleteDocument (doc_id : Z).

Inductive LogRecord :=
| LogErrorVariantMissing (variant_id : Z)
| LogInfoInboundDone (doc_id : option Z)
| LogInfoOutboundDone (doc_id : option Z)
| LogInfoAdjustDone (doc_id : option Z)
| LogInfoDeleted (doc_id : Z).

Record World := mk_world {
  variants : gmap Z VariantRow;
  documents : gmap Z DocumentRow;
  calls : list StoreCall;
  log : list LogRecord
}.

(** ** Operations: world passing with exceptions *)

Inductive Outcome (A : Type) :=
| Returned (a : A)
| Raised (e : Exn).

Arguments Returned {A} a.
Arguments Raised {A} e.

Definition M (A : Type) : Type := World → World * Outcome A.

Definition ret {A} (a : A) : M A := λ w, (w, Returned a).

Definition bind {A B} (m : M A) (k : A → M B) : M B := λ w,
  match m w with
  | (w', Returned a) => k a w'
  | (w', Raised e) => (w', Raised e)
  end.

Definition raise {A} (c : ExnClass) (msg : Message) : M A := λ w,
  (w, Raised (mk_exn c msg)).

Notation "x <- c1 ;; c2" := (bind c1 (λ x, c2))
  (at level 100, c1 at next level, right associativity).
Notation "c1 ;;; c2" := (bind c1 (λ _, c2))
  (at level 100, right associativity).

(** [for x in l: body(x)], where the body runs to its end or raises. *)
Fixpoint for_each {A} (body : A → M unit) (l : list A) : M unit :=
  match l with
  | [] => ret tt
  | x :: rest => body x ;;; for_each body rest
  end.

Definition called (c : StoreCall) : M unit := λ w,
  (mk_world (variants w) (documents w) (calls w ++ [c]) (log w), Returned tt).

Definition logged (r : LogRecord) : M unit := λ w,
  (mk_world (variants w) (documents w) (calls w) (log w ++ [r]), Returned tt).

Definition world_of {A} (r : World * Outcome A) : World := fst r.
Definition outcome_of {A} (r : World * Outcome A) : Outcome A := snd r.

(** ** src/infrastructure/repositories.py, [SqliteProductRepository]

    The engine holds it as [self.product_repo]. *)

Module product_repo.

Definition _map_row_to_variant (i : Z) (row : VariantRow) : Variant.t :=
  Variant.mk (row_product_id row) (row_size row) (row_color row) (row_sku row)
    (row_stock_qty row) (row_safety_stock row) (Some i).

(** [SELECT * FROM variants WHERE id = ?] *)
Definition get_variant_by_id (variant_id : Z) : M (option Variant.t) :=
  called (GetVariantById variant_id) ;;;
  λ w, (w, Returned (_map_row_to_variant variant_id <$> variants w !! variant_id)).

(** [UPDATE variants SET size, color, sku, stock_qty, safety_stock WHERE id = ?]:
    [product_id] is not among the columns written. *)
Definition updated_row (variant : Variant.t) (old : VariantRow) : VariantRow :=
  mk_variant_row (row_product_id old) (Variant.size variant) (Variant.color variant)
    (Variant.sku variant) (Variant.stock_qty variant) (Variant.safety_stock variant).

Definition update_variant (variant : Variant.t) : M unit :=
  called (UpdateVariant variant) ;;;
  match Variant.id variant with
  | None => raise RepositoryError MsgVariantWithoutId
  | Some i => λ w,
      match variants w !! i with
      | None => (w, Raised (mk_exn EntityNotFoundError (MsgVariantRowNotFound i)))
      | Some old =>
          (mk_world (<[i := updated_row variant old]> (variants w))
             (documents w) (calls w) (log w), Returned tt)
      end
  end.

(** [ORDER BY id DESC], and rows in the order of their ids. *)
Definition id_desc {A} (a b : Z * A) : Prop := b.1 ≤ a.1.

Definition id_asc {A} (a b : Z * A) : Prop := a.1 ≤ b.1.

Global Instance id_desc_dec {A} (a b : Z * A) : Decision (id_desc a b).
Proof. unfold id_desc. apply _. Defined.

Global Instance id_asc_dec {A} (a b : Z * A) : Decision (id_asc a b).
Proof. unfold id_asc. apply _. Defined.

Definition _map_row_to_product (i : Z) (row : ProductRow) : Product.t :=
  Product.mk (row_name row) (row_brand row) (row_base_price row) (row_category row)
    (row_description row) (Some i) (row_product_created_at row).

(** The list queries only read; each is the function of the table it
    selects from.  [SELECT * FROM products ORDER BY id DESC]. *)
Definition get_all_products (products : gmap Z ProductRow) : list Product.t :=
  (λ kv, _map_row_to_product kv.1 kv.2) <$>
    merge_sort id_desc (map_to_list products).

(** [SELECT * FROM variants WHERE product_id = ?]: the query names no
    order; the rows are taken by ascending id. *)
Definition get_variants_by_product_id (vs : gmap Z VariantRow) (product_id : Z)
  : list Variant.t :=
  (λ kv, _map_row_to_variant kv.1 kv.2) <$>
    filter (λ kv, row_product_id kv.2 = product_id)
      (merge_sort id_asc (map_to_list vs)).

End product_repo.

(** ** src/infrastructure/repositories.py, [SqliteDocumentRepository]

    The engine holds it as [self.document_repo]. *)

Module document_repo.

(** Modelled from the spec: the schema (schema.sql) is not under src/.
    The Document Store "returns the Document with assigned identifier":
    the identifier a table assigns ([cursor.lastrowid]) is a new one, one
    more than the largest rowid in use. *)
Definition next_rowid (used : list Z) : Z := 1 + foldr Z.max 0 used.

Definition document_rowids (w : World) : list Z :=
  (map_to_list (documents w)).*1.

Definition item_rowids (w : World) : list Z :=
  (map_to_list (documents w)).*2 ≫= (λ row, item_rowid <$> row_items row).

(** [items_data], each tuple with the rowid [executemany] gives it. *)
Fixpoint item_rows (next : Z) (items : list DocumentItem.t) : list ItemRow :=
  match items with
  | [] => []
  | item :: rest =>
      mk_item_row next (DocumentItem.variant_id item) (DocumentItem.quantity item)
        (DocumentItem.unit_price item) :: item_rows (next + 1) rest
  end.

(** The header is inserted with [doc_type], [doc_date] and [note] only
    ([created_at] is left to the table, here NULL); the caller's object
    gets the new id and is returned. *)
Definition add_document (document : Document.t) : M Document.t :=
  called (AddDocument document) ;;;
  λ w,
    let new_doc_id := next_rowid (document_rowids w) in
    let row := mk_document_row (Document.doc_type document) (Document.doc_date document)
                 (Document.note document) None
                 (item_rows (next_rowid (item_rowids w)) (Document.items document)) in
    (mk_world (variants w) (<[new_doc_id := row]> (documents w)) (calls w) (log w),
     Returned (Document.set_id new_doc_id document)).

Definition _map_row_to_document (i : Z) (row : DocumentRow) : Document.t :=
  Document.mk (row_doc_type row) (row_doc_date row) [] (row_note row) (Some i)
    (row_created_at row).

(** The items query is an inner join of [document_items] with [variants]
    (and of [variants] with [products]): a row whose variant is not in the
    store is not fetched.  [variants.product_id] is a foreign key with
    ON DELETE CASCADE (the note in [delete_product]) and foreign keys are
    enforced on the connection ([PRAGMA foreign_keys = ON] in
    db_manager.py), so the join with [products] drops no further row. *)
Definition joined_items (vs : gmap Z VariantRow) (row : DocumentRow) : list ItemRow :=
  filter (λ r, is_Some (vs !! item_variant_id r)) (row_items row).

(** The row keeps [unit_price] and [doc_date] as the values that were
    bound; what SQLite's column types make of them on the way back (a
    REAL column, a date read as text) is not modelled, and no property
    below depends on these two fields. *)
Definition item_of_row (r : ItemRow) : DocumentItem.t :=
  DocumentItem.mk (item_variant_id r) (item_quantity r) (item_unit_price r)
    (Some (item_rowid r)) None.

Definition get_document_by_id (doc_id : Z) : M (option Document.t) :=
  called (GetDocumentById doc_id) ;;;
  λ w,
    (w, Returned
          ((λ row, foldl (λ document r, Document.add_item (item_of_row r) document)
                     (_map_row_to_document doc_id row) (joined_items (variants w) row))
             <$> documents w !! doc_id)).

(** [DELETE FROM documents WHERE id = ?]; deleting an id that is not there
    only warns.  Modelled from the spec: delete-by-id "removes header and
    items" (the cascade is declared in the schema). *)
Definition delete_document (doc_id : Z) : M unit :=
  called (DeleteDocument doc_id) ;;;
  λ w, (mk_world (variants w) (delete doc_id (documents w)) (calls w) (log w),
        Returned tt).

(** [if doc_type:] adds the [WHERE doc_type = ?]: neither [None] nor the
    empty string filters. *)
Definition selected (doc_type : option string) (row : DocumentRow) : Prop :=
  match doc_type with
  | Some t => t = "" ∨ row_doc_type row = t
  | None => True
  end.

Global Instance selected_dec doc_type row : Decision (selected doc_type row).
Proof. destruct doc_type; simpl; apply _. Defined.

(** [ORDER BY doc_date DESC, id DESC]; a date is stored as its ISO text,
    whose order is that of year, month and day. *)
Definition listed_before (x y : Z * DocumentRow) : Prop :=
  let dx := row_doc_date x.2 in
  let dy := row_doc_date y.2 in
  year dy < year dx ∨
  (year dy = year dx ∧
   (month dy < month dx ∨
    (month dy = month dx ∧
     (day dy < day dx ∨ (day dy = day dx ∧ y.1 ≤ x.1))))).

Global Instance listed_before_dec x y : Decision (listed_before x y).
Proof. unfold listed_before. apply _. Defined.

(** The list query returns headers: [_map_row_to_document] without the
    items. *)
Definition get_all_documents (docs : gmap Z DocumentRow) (doc_type : option string)
  : list Document.t :=
  (λ kv, _map_row_to_document kv.1 kv.2) <$>
    merge_sort listed_before
      (filter (λ kv, selected doc_type kv.2) (map_to_list docs)).

End document_repo.

(** ** src/application/services.py, [InventoryService] *)

Definition get_all_products (products : gmap Z ProductRow) : list Product.t :=
  product_repo.get_all_products products.

Definition get_variants_for_product (w : World) (product_id : Z) : list Variant.t :=
  product_repo.get_variants_by_product_id (variants w) product_id.

(** The two nested loops that fill [low_stock_list]; a product read from
    the table has an id, and the query for [None] finds no row. *)
Definition get_low_stock_variants (products : gmap Z ProductRow) (w : World)
  : list Variant.t :=
  product_repo.get_all_products products ≫= λ product,
    filter (λ variant, Variant.is_low_stock variant = true)
      (match Product.id product with
       | Some i => product_repo.get_variants_by_product_id (variants w) i
       | None => []
       end).

(** The body of the loop of [create_inbound_order]: a missing variant is
    logged and the loop continues. *)
Definition inbound_item (item : DocumentItem.t) : M unit :=
  variant <- product_repo.get_variant_by_id (DocumentItem.variant_id item) ;;
  match variant with
  | None => logged (LogErrorVariantMissing (DocumentItem.variant_id item))
  | Some variant =>
      product_repo.update_variant
        (Variant.set_stock_qty
           (Variant.stock_qty variant + DocumentItem.quantity item) variant)
  end.

Definition create_inbound_order (document : Document.t) : M Document.t :=
  if decide (Document.doc_type document ≠ "INBOUND") then
    raise BusinessRuleViolation (MsgDocTypeMustBe "INBOUND")
  else
    saved_doc <- document_repo.add_document document ;;
    for_each inbound_item (Document.items saved_doc) ;;;
    logged (LogInfoInboundDone (Document.id saved_doc)) ;;;
    ret saved_doc.

Definition outbound_precheck (item : DocumentItem.t) : M unit :=
  variant <- product_repo.get_variant_by_id (DocumentItem.variant_id item) ;;
  match variant with
  | None =>
      raise EntityNotFoundError (MsgVariantNotFound (DocumentItem.variant_id item))
  | Some variant =>
      if decide (Variant.stock_qty variant < DocumentItem.quantity item) then
        raise OutOfStockError
          (MsgOutOfStock (Variant.display_name variant) (Variant.stock_qty variant)
             (DocumentItem.quantity item))
      else ret tt
  end.

(** Step 3 reads [variant.stock_qty] without testing [variant]: on [None]
    Python raises [AttributeError]. *)
Definition outbound_deduct (item : DocumentItem.t) : M unit :=
  variant <- product_repo.get_variant_by_id (DocumentItem.variant_id item) ;;
  match variant with
  | None => raise AttributeError (MsgNoneHasNoAttribute "stock_qty")
  | Some variant =>
      product_repo.update_variant
        (Variant.set_stock_qty
           (Variant.stock_qty variant - DocumentItem.quantity item) variant)
  end.

Definition create_outbound_order (document : Document.t) : M Document.t :=
  if decide (Document.doc_type document ≠ "OUTBOUND") then
    raise BusinessRuleViolation (MsgDocTypeMustBe "OUTBOUND")
  else
    for_each outbound_precheck (Document.items document) ;;;
    saved_doc <- document_repo.add_document document ;;
    for_each outbound_deduct (Document.items saved_doc) ;;;
    logged (LogInfoOutboundDone (Document.id saved_doc)) ;;;
    ret saved_doc.

Definition adjust_item (item : DocumentItem.t) : M unit :=
  variant <- product_repo.get_variant_by_id (DocumentItem.variant_id item) ;;
  match variant with
  | None => ret tt
  | Some variant =>
      let new_qty := Variant.stock_qty variant + DocumentItem.quantity item in
      if decide (new_qty < 0) then
        raise BusinessRuleViolation
          (MsgNegativeAfterAdjust (Variant.display_name variant))
      else product_repo.update_variant (Variant.set_stock_qty new_qty variant)
  end.

Definition create_adjustment_order (document : Document.t) : M Document.t :=
  if decide (Document.doc_type document ≠ "ADJUST") then
    raise BusinessRuleViolation (MsgDocTypeMustBe "ADJUST")
  else
    saved_doc <- document_repo.add_document document ;;
    for_each adjust_item (Document.items saved_doc) ;;;
    logged (LogInfoAdjustDone (Document.id saved_doc)) ;;;
    ret saved_doc.

Definition get_documents (w : World) (doc_type : option string) : list Document.t :=
  document_repo.get_all_documents (documents w) doc_type.

Definition get_document_detail (doc_id : Z) : M (option Document.t) :=
  document_repo.get_document_by_id doc_id.

(** The dict [impacts]: keys in insertion order, [impacts.get(k, 0)] and
    [impacts[k] = v] (a key already present keeps its place). *)
Fixpoint dict_get (d : list (Z * Z)) (k : Z) (default : Z) : Z :=
  match d with
  | [] => default
  | (k', v') :: rest => if decide (k' = k) then v' else dict_get rest k default
  end.

Fixpoint dict_set (d : list (Z * Z)) (k v : Z) : list (Z * Z) :=
  match d with
  | [] => [(k, v)]
  | (k', v') :: rest =>
      if decide (k' = k) then (k, v) :: rest else (k', v') :: dict_set rest k v
  end.

(** The [if]/[elif] chain on [doc.doc_type]; [change] stays 0 for any
    other type. *)
Definition rollback_change (doc_type : string) (quantity : Z) : Z :=
  if decide (doc_type = "INBOUND") then - quantity
  else if decide (doc_type = "OUTBOUND") then quantity
  else if decide (doc_type = "ADJUST") then - quantity
  else 0.

Definition compute_impacts (doc : Document.t) : list (Z * Z) :=
  foldl (λ impacts item,
      let change := rollback_change (Document.doc_type doc) (DocumentItem.quantity item) in
      dict_set impacts (DocumentItem.variant_id item)
        (dict_get impacts (DocumentItem.variant_id item) 0 + change))
    [] (Document.items doc).

Definition strict_check (entry : Z * Z) : M unit :=
  let '(vid, change) := entry in
  if decide (change < 0) then
    variant <- product_repo.get_variant_by_id vid ;;
    match variant with
    | None => ret tt
    | Some variant =>
        let final_qty := Variant.stock_qty variant + change in
        if decide (final_qty < 0) then
          raise BusinessRuleViolation
            (MsgRollbackShort (Variant.display_name variant)
               (Variant.stock_qty variant) (Z.abs change))
        else ret tt
    end
  else ret tt.

Definition apply_rollback (entry : Z * Z) : M unit :=
  let '(vid, change) := entry in
  if decide (change = 0) then ret tt
  else
    variant <- product_repo.get_variant_by_id vid ;;
    match variant with
    | Some variant =>
        product_repo.update_variant
          (Variant.set_stock_qty (Variant.stock_qty variant + change) variant)
    | None => ret tt
    end.

Definition delete_document (doc_id : Z) : M unit :=
  doc <- document_repo.get_document_by_id doc_id ;;
  match doc with
  | None => raise EntityNotFoundError (MsgDocumentNotFound doc_id)
  | Some doc =>
      let impacts := compute_impacts doc in
      for_each strict_check impacts ;;;
      for_each apply_rollback impacts ;;;
      document_repo.delete_document doc_id ;;;
      logged (LogInfoDeleted doc_id)
  end.

(** * Vocabulary of the properties *)

(** The row of a variant after [stock_qty += d] has been written back. *)
Definition row_add_stock (d : Z) (row : VariantRow) : VariantRow :=
  mk_variant_row (row_product_id row) (row_size row) (row_color row) (row_sku row)
    (row_stock_qty row + d) (row_safety_stock row).

(** The sum of the quantities of the items that reference variant [k]. *)
Definition net_quantity (k : Z) (items : list DocumentItem.t) : Z :=
  foldr (λ item acc,
      if decide (DocumentItem.variant_id item = k)
      then DocumentItem.quantity item + acc else acc)
    0 items.

(** Both tables of [w'] are those of [w]. *)
Definition same_tables (w w' : World) : Prop :=
  variants w' = variants w ∧ documents w' = documents w.

(** ** Sample data *)

Module sample.

Definition shoe (stock : Z) : VariantRow :=
  mk_variant_row 1 "US 9.5" "Red" "NK-AZ-R-95" stock 5.

Definition line (variant_id quantity : Z) : DocumentItem.t :=
  DocumentItem.mk variant_id quantity (S754_zero false) None None.

Definition doc (doc_type : string) (items : list DocumentItem.t) : Document.t :=
  Document.mk doc_type (mk_date 2026 1 7) items "" None None.

(** A store with the single variant 1 and no document. *)
Definition store (stock : Z) : World :=
  mk_world {[ 1 := shoe stock ]} ∅ [] [].

End sample.

(** An item the pre-check stops at: its variant is missing, or has less
    stock than the item asks for. *)
Definition offending (vs : gmap Z VariantRow) (item : DocumentItem.t) : Prop :=
  match vs !! DocumentItem.variant_id item with
  | None => True
  | Some row => row_stock_qty row < DocumentItem.quantity item
  end.

(** The exception the pre-check raises at an offending item. *)
Definition precheck_error (vs : gmap Z VariantRow) (item : DocumentItem.t) : Exn :=
  match vs !! DocumentItem.variant_id item with
  | None =>
      mk_exn EntityNotFoundError (MsgVariantNotFound (DocumentItem.variant_id item))
  | Some row =>
      mk_exn OutOfStockError
        (MsgOutOfStock
           (Variant.display_name
              (product_repo._map_row_to_variant (DocumentItem.variant_id item) row))
           (row_stock_qty row) (DocumentItem.quantity item))
  end.

(** The variants the inbound loop logs as missing, in document order. *)
Definition missing_variants (vs : gmap Z VariantRow) (items : list DocumentItem.t)
  : list Z :=
  DocumentItem.variant_id <$>
    filter (λ item, vs !! DocumentItem.variant_id item = None) items.

(** What [add_document] leaves in the store for [document]. *)
Definition persisted_row (w : World) (document : Document.t) : DocumentRow :=
  mk_document_row (Document.doc_type document) (Document.doc_date document)
    (Document.note document) None
    (document_repo.item_rows
       (document_repo.next_rowid (document_repo.item_rowids w))
       (Document.items document)).

(** The variants table and the exception, if any, that the loop of
    [create_adjustment_order] leaves: its effect with the calls and the
    world taken away. *)
Fixpoint adjust_rows (vs : gmap Z VariantRow) (items : list DocumentItem.t)
  : gmap Z VariantRow * option Exn :=
  match items with
  | [] => (vs, None)
  | item :: rest =>
      match vs !! DocumentItem.variant_id item with
      | None => adjust_rows vs rest
      | Some row =>
          if decide (row_stock_qty row + DocumentItem.quantity item < 0) then
            (vs, Some (mk_exn BusinessRuleViolation
                         (MsgNegativeAfterAdjust
                            (Variant.display_name
                               (product_repo._map_row_to_variant
                                  (DocumentItem.variant_id item) row)))))
          else
            adjust_rows
              (<[DocumentItem.variant_id item :=
                   row_add_stock (DocumentItem.quantity item) row]> vs) rest
      end
  end.

(** No item of [items] drives the stock of an existing variant below zero
    when the items are applied in order. *)
Definition adjust_passes (vs : gmap Z VariantRow) (items : list DocumentItem.t) : Prop :=
  ∀ pre item post row,
    items = pre ++ item :: post →
    vs !! DocumentItem.variant_id item = Some row →
    0 ≤ row_stock_qty row + net_quantity (DocumentItem.variant_id item) pre
        + DocumentItem.quantity item.

Definition outcome_of_exn (o : option Exn) : Outcome unit :=
  match o with
  | None => Returned tt
  | Some e => Raised e
  end.

(** The change one item of a document of type [doc_type] adds to the
    impact of variant [k], summed over the items. *)
Definition net_change (doc_type : string) (k : Z) (items : list DocumentItem.t) : Z :=
  foldr (λ item acc,
      if decide (DocumentItem.variant_id item = k)
      then rollback_change doc_type (DocumentItem.quantity item) + acc else acc)
    0 items.

(** One turn of the loop that fills [impacts]. *)
Definition impact_step (doc_type : string) (impacts : list (Z * Z))
    (item : DocumentItem.t) : list (Z * Z) :=
  dict_set impacts (DocumentItem.variant_id item)
    (dict_get impacts (DocumentItem.variant_id item) 0
     + rollback_change doc_type (DocumentItem.quantity item)).

(** An entry of [impacts] the strict check stops at: the rollback would
    take stock from a variant that is in the store and has too little. *)
Definition rollback_short (vs : gmap Z VariantRow) (entry : Z * Z) : Prop :=
  entry.2 < 0 ∧
  ∃ row, vs !! entry.1 = Some row ∧ row_stock_qty row + entry.2 < 0.

(** The exception the strict check raises for variant [vid], stored as
    [row], whose net impact is [change]. *)
Definition rollback_error (vid : Z) (row : VariantRow) (change : Z) : Exn :=
  mk_exn BusinessRuleViolation
    (MsgRollbackShort
       (Variant.display_name (product_repo._map_row_to_variant vid row))
       (row_stock_qty row) (Z.abs change)).

(** The variants the strict check has to read: those of negative impact. *)
Definition negative_keys (impacts : list (Z * Z)) : list Z :=
  (filter (λ entry, entry.2 < 0) impacts).*1.

Global Instance rollback_short_dec vs entry : Decision (rollback_short vs entry).
Proof.
  unfold rollback_short.
  destruct (decide (entry.2 < 0)) as [Hneg|Hpos]; [|right; tauto].
  destruct (vs !! entry.1) as [row|]; [|right; intros (_ & r & ? & _); done].
  destruct (decide (row_stock_qty row + entry.2 < 0)) as [Hs|Hs].
  - left. split; [done|]. by exists row.
  - right. intros (_ & r & Hr & ?). by simplify_eq.
Defined.

(** The document [get_document_by_id] builds from a stored row. *)
Definition fetched (vs : gmap Z VariantRow) (doc_id : Z) (row : DocumentRow)
  : Document.t :=
  Document.mk (row_doc_type row) (row_doc_date row)
    (document_repo.item_of_row <$> document_repo.joined_items vs row)
    (row_note row) (Some doc_id) (row_created_at row).



(** No variant of the table has a negative stock. *)
Definition stock_nonnegative (vs : gmap Z VariantRow) : Prop :=
  ∀ k row, vs !! k = Some row → 0 ≤ row_stock_qty row.

Global Instance offending_dec vs item : Decision (offending vs item).
Proof. unfold offending. destruct (vs !! _); apply _. Defined.

(** The order of a document list: the later date first, and for one date
    the larger id first. *)
Definition newer_first (a b : Document.t) : Prop :=
  let da := Document.doc_date a in
  let db := Document.doc_date b in
  year db < year da ∨
  (year db = year da ∧
   (month db < month da ∨
    (month db = month da ∧
     (day db < day da ∨
      (day db = day da ∧
       ∃ i j, Document.id a = Some i ∧ Document.id b = Some j ∧ j ≤ i))))).

(** From [vs] to [vs'] no variant came or went, and no column of a
    variant changed except its stock. *)
Definition only_stock_changed (vs vs' : gmap Z VariantRow) : Prop :=
  ∀ k, ∃ d, vs' !! k = row_add_stock d <$> vs !! k.

(** The order of the product list: the larger id first. *)
Definition larger_id_first (a b : Product.t) : Prop :=
  ∃ i j, Product.id a = Some i ∧ Product.id b = Some j ∧ j ≤ i.

(** * Properties *)

(** ** Rows, sums and the tables of a world *)

Lemma row_add_stock_0 row : row_add_stock 0 row = row.
Proof. destruct row; unfold row_add_stock; simpl. by rewrite Z.add_0_r. Qed.

Lemma row_add_stock_add a b row :
  row_add_stock b (row_add_stock a row) = row_add_stock (a + b) row.
Proof. unfold row_add_stock; simpl. by rewrite Z.add_assoc. Qed.

Lemma same_tables_refl w : same_tables w w.
Proof. by split. Qed.

Lemma same_tables_trans w1 w2 w3 :
  same_tables w1 w2 → same_tables w2 w3 → same_tables w1 w3.
Proof. intros [? ?] [? ?]; split; congruence. Qed.

Lemma for_each_cons {A} (body : A → M unit) x rest w :
  for_each body (x :: rest) w =
  match body x w with
  | (w', Returned _) => for_each body rest w'
  | (w', Raised e) => (w', Raised e)
  end.
Proof. reflexivity. Qed.

(** ** The variant repository *)

Lemma get_variant_by_id_run k w :
  product_repo.get_variant_by_id k w =
  (mk_world (variants w) (documents w) (calls w ++ [GetVariantById k]) (log w),
   Returned (product_repo._map_row_to_variant k <$> variants w !! k)).
Proof. reflexivity. Qed.

Lemma update_fetched_run k row q w :
  variants w !! k = Some row →
  product_repo.update_variant
    (Variant.set_stock_qty q (product_repo._map_row_to_variant k row)) w =
  (mk_world (<[k := row_add_stock (q - row_stock_qty row) row]> (variants w))
     (documents w)
     (calls w ++ [UpdateVariant (Variant.set_stock_qty q (product_repo._map_row_to_variant k row))])
     (log w),
   Returned tt).
Proof.
  intros Hk. unfold product_repo.update_variant, bind, called; simpl.
  rewrite Hk. do 3 f_equal.
  unfold product_repo.updated_row, row_add_stock; simpl. f_equal. lia.
Qed.

(** ** The document repository: a new identifier is a free one *)

Lemma foldr_max_ge (l : list Z) k : k ∈ l → k ≤ foldr Z.max 0 l.
Proof.
  induction l as [|x l IH]; intros Hin.
  - by apply elem_of_nil in Hin.
  - apply elem_of_cons in Hin as [->|Hin]; simpl; [lia|].
    specialize (IH Hin). lia.
Qed.

Lemma next_rowid_fresh w :
  documents w !! document_repo.next_rowid (document_repo.document_rowids w) = None.
Proof.
  destruct (documents w !! document_repo.next_rowid (document_repo.document_rowids w)) as [row|] eqn:E; [|done].
  exfalso.
  assert (document_repo.next_rowid (document_repo.document_rowids w) ∈ document_repo.document_rowids w) as Hin.
  { unfold document_repo.document_rowids. apply list_elem_of_fmap.
    exists (document_repo.next_rowid (document_repo.document_rowids w), row). split; [done|].
    by apply elem_of_map_to_list. }
  apply foldr_max_ge in Hin. unfold document_repo.next_rowid in Hin at 1. lia.
Qed.

(** ** Document type guards *)

(** C8. A document whose type is not the one the creation operation is
    for is rejected before any store access: the operation raises and the
    world it leaves is the world it got, with no call made on either
    repository, no document persisted and no stock changed. *)
Theorem wrong_type_rejected_before_store_access (document : Document.t) (w : World) :
  (Document.doc_type document ≠ "INBOUND" →
   create_inbound_order document w =
   (w, Raised (mk_exn BusinessRuleViolation (MsgDocTypeMustBe "INBOUND")))) ∧
  (Document.doc_type document ≠ "OUTBOUND" →
   create_outbound_order document w =
   (w, Raised (mk_exn BusinessRuleViolation (MsgDocTypeMustBe "OUTBOUND")))) ∧
  (Document.doc_type document ≠ "ADJUST" →
   create_adjustment_order document w =
   (w, Raised (mk_exn BusinessRuleViolation (MsgDocTypeMustBe "ADJUST")))).
Proof.
  unfold create_inbound_order, create_outbound_order, create_adjustment_order.
  repeat split; intros Hne; by rewrite decide_True.
Qed.

Lemma wrong_type_rejected_witness :
  create_outbound_order (sample.doc "INBOUND" [sample.line 1 2]) (sample.store 10) =
  (sample.store 10,
   Raised (mk_exn BusinessRuleViolation (MsgDocTypeMustBe "OUTBOUND"))).
Proof.
  apply (wrong_type_rejected_before_store_access
           (sample.doc "INBOUND" [sample.line 1 2]) (sample.store 10)).
  simpl. discriminate.
Defined.

(** ** Outbound *)

(** C1. The engine does not keep [stock_qty >= 0] on every accepted
    OUTBOUND document: the pre-check compares each item with the stock on
    its own, so two items of 3 on a variant with stock 5 both pass, the
    document is accepted and the variant is left at -1. *)
Theorem outbound_same_variant_twice_goes_negative :
  let document := sample.doc "OUTBOUND" [sample.line 1 3; sample.line 1 3] in
  let r := create_outbound_order document (sample.store 5) in
  outcome_of r = Returned (Document.set_id 1 document) ∧
  row_stock_qty <$> variants (world_of r) !! 1 = Some (-1) ∧
  is_Some (documents (world_of r) !! 1).
Proof. vm_compute. repeat split. by eexists. Qed.

Lemma outbound_precheck_run item w :
  outbound_precheck item w =
  (mk_world (variants w) (documents w)
     (calls w ++ [GetVariantById (DocumentItem.variant_id item)]) (log w),
   match variants w !! DocumentItem.variant_id item with
   | None => Raised (precheck_error (variants w) item)
   | Some row =>
       if decide (row_stock_qty row < DocumentItem.quantity item)
       then Raised (precheck_error (variants w) item) else Returned tt
   end).
Proof.
  unfold outbound_precheck, bind, precheck_error. rewrite get_variant_by_id_run.
  destruct (variants w !! DocumentItem.variant_id item) as [row|]; simpl; [|done].
  by destruct (decide _).
Qed.

Lemma precheck_loop_fails items : ∀ w,
  Exists (offending (variants w)) items →
  ∃ w' item n,
    for_each outbound_precheck items w =
      (w', Raised (precheck_error (variants w) item)) ∧
    item ∈ items ∧ offending (variants w) item ∧
    same_tables w w' ∧ log w' = log w ∧
    calls w' = calls w ++ ((GetVariantById ∘ DocumentItem.variant_id) <$> take n items).
Proof.
  induction items as [|item rest IH]; intros w Hex.
  - by apply Exists_nil in Hex.
  - rewrite for_each_cons, outbound_precheck_run.
    set (w1 := mk_world _ _ _ _).
    assert (offending (variants w) item →
            ∃ w' item0 n,
              (w1, Raised (precheck_error (variants w) item) : Outcome unit) =
                (w', Raised (precheck_error (variants w) item0)) ∧
              item0 ∈ item :: rest ∧ offending (variants w) item0 ∧
              same_tables w w' ∧ log w' = log w ∧
              calls w' = calls w ++
                ((GetVariantById ∘ DocumentItem.variant_id) <$> take n (item :: rest)))
      as Hhead.
    { intros Hoff. exists w1, item, 1%nat.
      repeat split; [apply elem_of_cons; by left | done]. }
    unfold offending in Hhead at 1.
    destruct (variants w !! DocumentItem.variant_id item) as [row|] eqn:Hk;
      [|by apply Hhead].
    destruct (decide (row_stock_qty row < DocumentItem.quantity item)) as [Hlt|Hge];
      [by apply Hhead|].
    apply Exists_cons in Hex as [Hoff|Hex].
    { unfold offending in Hoff. rewrite Hk in Hoff. lia. }
    destruct (IH w1 Hex) as (w' & item0 & n & Hrun & Hin & Hoff & [Hv Hd] & Hlog & Hcalls).
    exists w', item0, (S n). simpl in *. rewrite Hrun.
    repeat split; try done.
    + apply elem_of_cons; by right.
    + rewrite Hcalls. by rewrite <- app_assoc.
Qed.

(** C2. An OUTBOUND document with an item whose variant is missing or
    whose quantity exceeds the variant's stock is refused:
    [create_outbound_order] raises at such an item, with
    [EntityNotFoundError] when its variant is missing and [OutOfStockError]
    (display name, stock, requested quantity) when its stock is short.
    After the failure both tables are those before the call, so every
    variant has its stock and no document was persisted; the only calls
    made were reads of variants. *)
Theorem outbound_refused_leaves_no_trace (document : Document.t) (w : World) :
  Document.doc_type document = "OUTBOUND" →
  Exists (offending (variants w)) (Document.items document) →
  ∃ w' item n,
    create_outbound_order document w =
      (w', Raised (precheck_error (variants w) item)) ∧
    item ∈ Document.items document ∧ offending (variants w) item ∧
    (variants w !! DocumentItem.variant_id item = None →
     exn_class (precheck_error (variants w) item) = EntityNotFoundError) ∧
    (is_Some (variants w !! DocumentItem.variant_id item) →
     exn_class (precheck_error (variants w) item) = OutOfStockError) ∧
    variants w' = variants w ∧ documents w' = documents w ∧
    calls w' = calls w ++
      ((GetVariantById ∘ DocumentItem.variant_id) <$> take n (Document.items document)).
Proof.
  intros Hty Hex.
  destruct (precheck_loop_fails _ w Hex)
    as (w' & item & n & Hrun & Hin & Hoff & [Hv Hd] & _ & Hcalls).
  exists w', item, n.
  unfold create_outbound_order. rewrite decide_False by (by intros []).
  unfold bind at 1. rewrite Hrun.
  repeat split; try done.
  - intros Hnone. unfold precheck_error. by rewrite Hnone.
  - intros [row Hrow]. unfold precheck_error. by rewrite Hrow.
Qed.

Lemma outbound_refused_witness :
  ∃ w', create_outbound_order (sample.doc "OUTBOUND" [sample.line 1 12]) (sample.store 10) =
          (w', Raised (mk_exn OutOfStockError (MsgOutOfStock "US 9.5 / Red" 10 12))) ∧
        variants w' = variants (sample.store 10) ∧
        documents w' = documents (sample.store 10).
Proof.
  destruct (outbound_refused_leaves_no_trace
              (sample.doc "OUTBOUND" [sample.line 1 12]) (sample.store 10))
    as (w' & item & n & Hrun & Hin & _ & _ & _ & Hv & Hd & _).
  - reflexivity.
  - apply Exists_cons_hd. vm_compute. reflexivity.
  - exists w'. apply list_elem_of_singleton in Hin. subst item.
    split; [exact Hrun | by split].
Defined.

Lemma outbound_deduct_run item w row :
  variants w !! DocumentItem.variant_id item = Some row →
  outbound_deduct item w =
  (mk_world
     (<[DocumentItem.variant_id item :=
          row_add_stock (- DocumentItem.quantity item) row]> (variants w))
     (documents w)
     ((calls w ++ [GetVariantById (DocumentItem.variant_id item)]) ++
      [UpdateVariant
         (Variant.set_stock_qty (row_stock_qty row - DocumentItem.quantity item)
            (product_repo._map_row_to_variant (DocumentItem.variant_id item) row))])
     (log w),
   Returned tt).
Proof.
  intros Hk. unfold outbound_deduct, bind. rewrite get_variant_by_id_run, Hk. simpl.
  rewrite (update_fetched_run _ row) by done. simpl.
  by replace (row_stock_qty row - DocumentItem.quantity item - row_stock_qty row)
    with (- DocumentItem.quantity item) by lia.
Qed.

Lemma deduct_loop_run items : ∀ w,
  Forall (λ item, is_Some (variants w !! DocumentItem.variant_id item)) items →
  ∃ w', for_each outbound_deduct items w = (w', Returned tt) ∧
        (∀ k, variants w' !! k =
              row_add_stock (- net_quantity k items) <$> variants w !! k) ∧
        documents w' = documents w ∧ log w' = log w.
Proof.
  induction items as [|item rest IH]; intros w Hall.
  - exists w. split_and!; try done. intros k.
    destruct (variants w !! k); simpl; [|done]. by rewrite row_add_stock_0.
  - apply Forall_cons in Hall as [[row Hrow] Hall].
    rewrite for_each_cons, (outbound_deduct_run _ _ row) by done.
    match goal with |- context [for_each _ _ ?w1] =>
      destruct (IH w1) as (w' & Hrun & Hv & Hd & Hlog) end.
    { simpl. eapply Forall_impl; [exact Hall|]. intros it [r Hr]. simpl in *.
      destruct (decide (DocumentItem.variant_id item = DocumentItem.variant_id it))
        as [Heq|Hne].
      - rewrite Heq, lookup_insert_eq. by eexists.
      - rewrite lookup_insert_ne by done. by eexists. }
    exists w'. simpl in *. split_and!; try done.
    intros k. rewrite Hv. destruct (decide (DocumentItem.variant_id item = k)) as [<-|Hne].
    + rewrite lookup_insert_eq, Hrow. simpl. rewrite row_add_stock_add. do 2 f_equal. lia.
    + by rewrite lookup_insert_ne.
Qed.

Lemma precheck_loop_passes items : ∀ w,
  Forall (λ item, ¬ offending (variants w) item) items →
  ∃ w', for_each outbound_precheck items w = (w', Returned tt) ∧
        same_tables w w' ∧ log w' = log w.
Proof.
  induction items as [|item rest IH]; intros w Hall.
  - by exists w.
  - apply Forall_cons in Hall as [Hok Hall].
    rewrite for_each_cons, outbound_precheck_run.
    unfold offending in Hok.
    destruct (variants w !! DocumentItem.variant_id item) as [row|]; [|done].
    rewrite decide_False by done.
    match goal with |- context [for_each _ _ ?w1] =>
      destruct (IH w1 Hall) as (w' & Hrun & Htab & Hlog) end.
    by exists w'.
Qed.

(** What the code does with an OUTBOUND document each of whose items,
    taken alone, finds its variant with enough stock: the document is
    accepted and every variant loses the sum of the quantities of the
    items that reference it, whatever its stock was. *)
Lemma create_outbound_order_accepted (document : Document.t) (w : World) :
  Document.doc_type document = "OUTBOUND" →
  Forall (λ item, ¬ offending (variants w) item) (Document.items document) →
  let new_id := document_repo.next_rowid (document_repo.document_rowids w) in
  ∃ w',
    create_outbound_order document w = (w', Returned (Document.set_id new_id document)) ∧
    (∀ k, variants w' !! k =
          row_add_stock (- net_quantity k (Document.items document)) <$> variants w !! k) ∧
    documents w' = <[new_id := persisted_row w document]> (documents w).
Proof.
  intros Hty Hall new_id.
  unfold create_outbound_order. rewrite decide_False by (by intros []).
  destruct (precheck_loop_passes _ w Hall) as (w1 & Hrun1 & [Hv1 Hd1] & _).
  unfold bind at 1. rewrite Hrun1.
  unfold bind at 1. unfold document_repo.add_document, bind at 1, called; simpl.
  unfold bind at 1.
  match goal with |- context [for_each _ _ ?w2] =>
    destruct (deduct_loop_run (Document.items document) w2)
      as (w' & Hrun & Hv & Hd & _) end.
  { simpl. rewrite Hv1. eapply Forall_impl; [exact Hall|].
    intros item Hok. unfold offending in Hok.
    by destruct (variants w !! DocumentItem.variant_id item). }
  simpl in *. rewrite Hrun. unfold logged, ret; simpl.
  eexists. split; [|split].
  - unfold document_repo.document_rowids. rewrite Hd1. reflexivity.
  - simpl. intros k. by rewrite Hv, Hv1.
  - simpl. rewrite Hd. unfold persisted_row, document_repo.item_rowids,
      document_repo.document_rowids, new_id. by rewrite Hd1.
Qed.

(** ** Inbound *)

Lemma inbound_item_run item w :
  inbound_item item w =
  match variants w !! DocumentItem.variant_id item with
  | None =>
      (mk_world (variants w) (documents w)
         (calls w ++ [GetVariantById (DocumentItem.variant_id item)])
         (log w ++ [LogErrorVariantMissing (DocumentItem.variant_id item)]),
       Returned tt)
  | Some row =>
      (mk_world
         (<[DocumentItem.variant_id item :=
              row_add_stock (DocumentItem.quantity item) row]> (variants w))
         (documents w)
         ((calls w ++ [GetVariantById (DocumentItem.variant_id item)]) ++
          [UpdateVariant
             (Variant.set_stock_qty (row_stock_qty row + DocumentItem.quantity item)
                (product_repo._map_row_to_variant (DocumentItem.variant_id item) row))])
         (log w),
       Returned tt)
  end.
Proof.
  unfold inbound_item, bind. rewrite get_variant_by_id_run.
  destruct (variants w !! DocumentItem.variant_id item) as [row|] eqn:Hk; simpl; [|done].
  rewrite (update_fetched_run _ row) by done. simpl.
  by replace (row_stock_qty row + DocumentItem.quantity item - row_stock_qty row)
    with (DocumentItem.quantity item) by lia.
Qed.

Lemma missing_variants_ext vs vs' items :
  (∀ k, vs' !! k = None ↔ vs !! k = None) →
  missing_variants vs' items = missing_variants vs items.
Proof.
  intros Hiff. unfold missing_variants. f_equal.
  induction items as [|item rest IH]; [done|].
  rewrite !filter_cons, IH.
  destruct (decide (vs' !! _ = None)) as [H|H], (decide (vs !! _ = None)) as [H'|H'];
    try done; exfalso; [apply H', Hiff, H | apply H, Hiff, H'].
Qed.

Lemma inbound_loop_run items : ∀ w,
  ∃ w', for_each inbound_item items w = (w', Returned tt) ∧
        (∀ k, variants w' !! k =
              row_add_stock (net_quantity k items) <$> variants w !! k) ∧
        documents w' = documents w ∧
        log w' = log w ++ (LogErrorVariantMissing <$> missing_variants (variants w) items).
Proof.
  induction items as [|item rest IH]; intros w.
  - exists w. repeat split; simpl.
    + intros k. destruct (variants w !! k) as [row|]; simpl; [|done].
      by rewrite row_add_stock_0.
    + by rewrite app_nil_r.
  - rewrite for_each_cons, inbound_item_run.
    destruct (variants w !! DocumentItem.variant_id item) as [row|] eqn:Hk.
    + match goal with |- context [for_each _ _ ?w1] =>
        destruct (IH w1) as (w' & Hrun & Hv & Hd & Hlog) end.
      exists w'. simpl in *. repeat split; try done.
      * intros k. rewrite Hv. destruct (decide (DocumentItem.variant_id item = k)) as [<-|Hne].
        -- rewrite lookup_insert_eq, Hk. simpl. by rewrite row_add_stock_add.
        -- by rewrite lookup_insert_ne.
      * rewrite Hlog. f_equal. f_equal.
        rewrite (missing_variants_ext (variants w)).
        -- unfold missing_variants. rewrite filter_cons, decide_False; [done|].
           by rewrite Hk.
        -- intros k. destruct (decide (DocumentItem.variant_id item = k)) as [<-|Hne].
           ++ rewrite lookup_insert_eq, Hk. split; discriminate.
           ++ by rewrite lookup_insert_ne.
    + match goal with |- context [for_each _ _ ?w1] =>
        destruct (IH w1) as (w' & Hrun & Hv & Hd & Hlog) end.
      exists w'. simpl in *. repeat split; try done.
      * intros k. rewrite Hv. destruct (decide (DocumentItem.variant_id item = k)) as [<-|Hne];
          [|done].
        rewrite Hk. done.
      * rewrite Hlog, <- app_assoc. f_equal.
        unfold missing_variants. by rewrite filter_cons, decide_True.
Qed.

Lemma create_inbound_order_run (document : Document.t) (w : World) :
  Document.doc_type document = "INBOUND" →
  let new_id := document_repo.next_rowid (document_repo.document_rowids w) in
  ∃ w',
    create_inbound_order document w = (w', Returned (Document.set_id new_id document)) ∧
    (∀ k, variants w' !! k =
          row_add_stock (net_quantity k (Document.items document)) <$> variants w !! k) ∧
    documents w !! new_id = None ∧
    documents w' = <[new_id := persisted_row w document]> (documents w) ∧
    log w' = log w ++
      (LogErrorVariantMissing <$> missing_variants (variants w) (Document.items document)) ++
      [LogInfoInboundDone (Some new_id)].
Proof.
  intros Hty new_id.
  unfold create_inbound_order. rewrite decide_False by (by intros []).
  unfold bind at 1. unfold document_repo.add_document, bind at 1, called; simpl.
  unfold bind at 1.
  match goal with |- context [for_each _ _ ?w1] =>
    destruct (inbound_loop_run (Document.items document) w1)
      as (w' & Hrun & Hv & Hd & Hlog) end.
  simpl in *. rewrite Hrun. unfold logged, ret; simpl.
  eexists. split; [reflexivity|]. simpl.
  repeat split; try done.
  - apply next_rowid_fresh.
  - rewrite Hlog. by rewrite <- app_assoc.
Qed.

(** C7. [create_inbound_order] on an INBOUND document returns the
    document it persisted (the caller's document with the identifier the
    store assigned).  Every variant of the store is left with its stock
    plus the sum of the quantities of the items that reference it, every
    other column as it was; a variant that is not in the store stays
    absent, one error record is logged for each item that references such
    a variant, and the document row is in the store with all its items. *)
Theorem inbound_increases_exactly (document : Document.t) (w : World) :
  Document.doc_type document = "INBOUND" →
  let new_id := document_repo.next_rowid (document_repo.document_rowids w) in
  ∃ w',
    create_inbound_order document w = (w', Returned (Document.set_id new_id document)) ∧
    (∀ k row, variants w !! k = Some row →
       ∃ row', variants w' !! k = Some row' ∧
               row_stock_qty row' =
               row_stock_qty row + net_quantity k (Document.items document)) ∧
    (∀ k, variants w' !! k =
          row_add_stock (net_quantity k (Document.items document)) <$> variants w !! k) ∧
    documents w !! new_id = None ∧
    documents w' = <[new_id := persisted_row w document]> (documents w) ∧
    log w' = log w ++
      (LogErrorVariantMissing <$> missing_variants (variants w) (Document.items document)) ++
      [LogInfoInboundDone (Some new_id)].
Proof.
  intros Hty new_id.
  destruct (create_inbound_order_run document w Hty) as (w' & Hrun & Hv & Hfresh & Hd & Hlog).
  exists w'. split_and!; try done.
  intros k row Hrow. exists (row_add_stock (net_quantity k (Document.items document)) row).
  by rewrite Hv, Hrow.
Qed.

Lemma inbound_increases_exactly_witness :
  ∃ w', create_inbound_order (sample.doc "INBOUND" [sample.line 1 5]) (sample.store 10) =
          (w', Returned (Document.set_id 1 (sample.doc "INBOUND" [sample.line 1 5]))) ∧
        variants w' !! 1 = Some (sample.shoe 15).
Proof.
  destruct (inbound_increases_exactly
              (sample.doc "INBOUND" [sample.line 1 5]) (sample.store 10) eq_refl)
    as (w' & Hrun & _ & Hv & _).
  exists w'. split; [exact Hrun|]. rewrite Hv. reflexivity.
Defined.

(** ** Adjustment *)

Lemma adjust_item_run item w :
  ∃ cs,
    adjust_item item w =
    (mk_world (adjust_rows (variants w) [item]).1 (documents w) (calls w ++ cs) (log w),
     outcome_of_exn (adjust_rows (variants w) [item]).2).
Proof.
  unfold adjust_item, bind. rewrite get_variant_by_id_run. simpl.
  destruct (variants w !! DocumentItem.variant_id item) as [row|] eqn:Hk; simpl.
  - destruct (decide (row_stock_qty row + DocumentItem.quantity item < 0)); simpl.
    + by eexists [_].
    + rewrite (update_fetched_run _ row) by done. simpl.
      replace (row_stock_qty row + DocumentItem.quantity item - row_stock_qty row)
        with (DocumentItem.quantity item) by lia.
      eexists [_; _]. by rewrite <- app_assoc.
  - by eexists [_].
Qed.

Lemma adjust_rows_cons vs item rest :
  adjust_rows vs (item :: rest) =
  match adjust_rows vs [item] with
  | (vs1, None) => adjust_rows vs1 rest
  | (vs1, Some e) => (vs1, Some e)
  end.
Proof.
  simpl. destruct (vs !! DocumentItem.variant_id item) as [row|]; [|done].
  by destruct (decide _).
Qed.

Lemma adjust_rows_app vs l1 l2 :
  adjust_rows vs (l1 ++ l2) =
  match adjust_rows vs l1 with
  | (vs1, None) => adjust_rows vs1 l2
  | (vs1, Some e) => (vs1, Some e)
  end.
Proof.
  revert vs. induction l1 as [|item l1 IH]; intros vs; [done|].
  simpl. destruct (vs !! DocumentItem.variant_id item) as [row|]; [|apply IH].
  destruct (decide _); [done|apply IH].
Qed.

Lemma adjust_loop_run items : ∀ w,
  ∃ w' cs,
    for_each adjust_item items w = (w', outcome_of_exn (adjust_rows (variants w) items).2) ∧
    variants w' = (adjust_rows (variants w) items).1 ∧
    documents w' = documents w ∧ log w' = log w ∧ calls w' = calls w ++ cs.
Proof.
  induction items as [|item rest IH]; intros w.
  - exists w, []. by rewrite app_nil_r.
  - rewrite for_each_cons, adjust_rows_cons.
    destruct (adjust_item_run item w) as (cs & ->).
    destruct (adjust_rows (variants w) [item]) as [vs1 [e|]]; simpl.
    + by eexists _, cs.
    + match goal with |- context [for_each _ _ ?w1] =>
        destruct (IH w1) as (w' & cs' & Hrun & Hv & Hd & Hlog & Hcalls) end.
      simpl in *. exists w', (cs ++ cs'). rewrite Hrun, Hcalls.
      by rewrite <- app_assoc.
Qed.

Lemma net_quantity_app k l1 l2 :
  net_quantity k (l1 ++ l2) = net_quantity k l1 + net_quantity k l2.
Proof.
  induction l1 as [|item l1 IH]; simpl; [done|].
  destruct (decide _); lia.
Qed.

Lemma adjust_rows_missing vs items k :
  vs !! k = None → (adjust_rows vs items).1 !! k = None.
Proof.
  revert vs. induction items as [|item rest IH]; intros vs Hk; [done|].
  simpl. destruct (vs !! DocumentItem.variant_id item) as [row|] eqn:Hi; [|by apply IH].
  destruct (decide _); [done|]. apply IH.
  rewrite lookup_insert_ne; [done|]. intros Heq. rewrite Heq in Hi. congruence.
Qed.

Lemma adjust_rows_pass items : ∀ vs,
  adjust_passes vs items →
  (adjust_rows vs items).2 = None ∧
  ∀ k, (adjust_rows vs items).1 !! k = row_add_stock (net_quantity k items) <$> vs !! k.
Proof.
  induction items as [|item rest IH]; intros vs Hp.
  - split; [done|]. intros k. simpl. destruct (vs !! k); simpl; [|done].
    by rewrite row_add_stock_0.
  - simpl. destruct (vs !! DocumentItem.variant_id item) as [row|] eqn:Hi.
    + pose proof (Hp [] item rest row eq_refl Hi) as H0. simpl in H0.
      rewrite decide_False by lia.
      destruct (IH (<[DocumentItem.variant_id item :=
                        row_add_stock (DocumentItem.quantity item) row]> vs)) as [Ho Hv].
      { intros pre it post row1 -> Hrow1.
        destruct (decide (DocumentItem.variant_id item = DocumentItem.variant_id it))
          as [Heq|Hne].
        - rewrite Heq, lookup_insert_eq in Hrow1. injection Hrow1 as <-.
          pose proof (Hp (item :: pre) it post row eq_refl) as H1.
          rewrite <- Heq in H1. specialize (H1 Hi). simpl in H1.
          rewrite decide_True in H1 by done. rewrite <- Heq. simpl. lia.
        - rewrite lookup_insert_ne in Hrow1 by done.
          pose proof (Hp (item :: pre) it post row1 eq_refl Hrow1) as H1.
          simpl in H1. by rewrite decide_False in H1. }
      split; [done|]. intros k. rewrite Hv.
      destruct (decide (DocumentItem.variant_id item = k)) as [<-|Hne].
      * rewrite lookup_insert_eq, Hi. simpl. by rewrite row_add_stock_add.
      * by rewrite lookup_insert_ne.
    + destruct (IH vs) as [Ho Hv].
      { intros pre it post row1 -> Hrow1.
        pose proof (Hp (item :: pre) it post row1 eq_refl Hrow1) as H1.
        simpl in H1. rewrite decide_False in H1; [done|].
        intros Heq. congruence. }
      split; [done|]. intros k. rewrite Hv.
      destruct (decide (DocumentItem.variant_id item = k)) as [<-|Hne]; [|done].
      by rewrite Hi.
Qed.

Lemma adjust_rows_fail vs pre item post row :
  adjust_passes vs pre →
  vs !! DocumentItem.variant_id item = Some row →
  row_stock_qty row + net_quantity (DocumentItem.variant_id item) pre
    + DocumentItem.quantity item < 0 →
  (adjust_rows vs (pre ++ item :: post)).2 =
    Some (mk_exn BusinessRuleViolation
            (MsgNegativeAfterAdjust
               (Variant.display_name
                  (product_repo._map_row_to_variant (DocumentItem.variant_id item) row)))) ∧
  ∀ k, (adjust_rows vs (pre ++ item :: post)).1 !! k =
       row_add_stock (net_quantity k pre) <$> vs !! k.
Proof.
  intros Hp Hrow Hneg. rewrite adjust_rows_app.
  destruct (adjust_rows_pass pre vs Hp) as [Ho Hv].
  destruct (adjust_rows vs pre) as [vs1 o]; simpl in *. subst o.
  rewrite Hv, Hrow. simpl. rewrite decide_True by lia. simpl.
  split; [done|]. apply Hv.
Qed.

Lemma adjust_rows_skip vs pre item post :
  vs !! DocumentItem.variant_id item = None →
  adjust_rows vs (pre ++ item :: post) = adjust_rows vs (pre ++ post).
Proof.
  intros Hk. rewrite !adjust_rows_app.
  pose proof (adjust_rows_missing vs pre _ Hk) as Hk1.
  destruct (adjust_rows vs pre) as [vs1 [e|]]; [done|].
  simpl in *. by rewrite Hk1.
Qed.

Lemma create_adjustment_order_run (document : Document.t) (w : World) :
  Document.doc_type document = "ADJUST" →
  let new_id := document_repo.next_rowid (document_repo.document_rowids w) in
  let after := adjust_rows (variants w) (Document.items document) in
  ∃ w' cs,
    create_adjustment_order document w =
      (w', match after.2 with
           | None => Returned (Document.set_id new_id document)
           | Some e => Raised e
           end) ∧
    variants w' = after.1 ∧
    documents w' = <[new_id := persisted_row w document]> (documents w) ∧
    log w' = log w ++ match after.2 with
                      | None => [LogInfoAdjustDone (Some new_id)]
                      | Some _ => []
                      end ∧
    calls w' = calls w ++ AddDocument document :: cs.
Proof.
  intros Hty new_id after.
  unfold create_adjustment_order. rewrite decide_False by (by intros []).
  unfold bind at 1. unfold document_repo.add_document, bind at 1, called; simpl.
  unfold bind at 1.
  match goal with |- context [for_each _ _ ?w1] =>
    destruct (adjust_loop_run (Document.items document) w1)
      as (w' & cs & Hrun & Hv & Hd & Hlog & Hcalls) end.
  simpl in *. rewrite Hrun. fold after in Hv |- *.
  destruct (after.2) as [e|]; simpl.
  - exists w', cs. repeat split; try done.
    + by rewrite Hlog, app_nil_r.
    + by rewrite Hcalls, <- app_assoc.
  - unfold logged, ret; simpl. eexists _, cs. split; [reflexivity|]. simpl.
    repeat split; try done.
    + by rewrite Hlog.
    + by rewrite Hcalls, <- app_assoc.
Qed.

(** C9. [create_adjustment_order] on an ADJUST document persists the
    document first and then takes the items in document order.  At the
    first item that would leave its variant below zero (the stock with the
    earlier items of the document added) the operation raises
    [BusinessRuleViolation] naming that variant; the document stays
    persisted and the deltas of the earlier items stay applied, the item
    itself and the later ones are not applied.  When no item does so the
    persisted document is returned and every variant has its stock plus
    the sum of the quantities of the items that reference it. *)
Theorem adjustment_checks_while_applying (document : Document.t) (w : World) :
  Document.doc_type document = "ADJUST" →
  let new_id := document_repo.next_rowid (document_repo.document_rowids w) in
  (∀ pre item post row,
     Document.items document = pre ++ item :: post →
     adjust_passes (variants w) pre →
     variants w !! DocumentItem.variant_id item = Some row →
     row_stock_qty row + net_quantity (DocumentItem.variant_id item) pre
       + DocumentItem.quantity item < 0 →
     ∃ w' cs,
       create_adjustment_order document w =
         (w', Raised (mk_exn BusinessRuleViolation
                        (MsgNegativeAfterAdjust
                           (Variant.display_name
                              (product_repo._map_row_to_variant
                                 (DocumentItem.variant_id item) row))))) ∧
       calls w' = calls w ++ AddDocument document :: cs ∧
       documents w !! new_id = None ∧
       documents w' = <[new_id := persisted_row w document]> (documents w) ∧
       ∀ k, variants w' !! k = row_add_stock (net_quantity k pre) <$> variants w !! k) ∧
  (adjust_passes (variants w) (Document.items document) →
   ∃ w' cs,
     create_adjustment_order document w =
       (w', Returned (Document.set_id new_id document)) ∧
     calls w' = calls w ++ AddDocument document :: cs ∧
     documents w !! new_id = None ∧
     documents w' = <[new_id := persisted_row w document]> (documents w) ∧
     ∀ k, variants w' !! k =
          row_add_stock (net_quantity k (Document.items document)) <$> variants w !! k).
Proof.
  intros Hty new_id.
  destruct (create_adjustment_order_run document w Hty)
    as (w' & cs & Hrun & Hv & Hd & _ & Hcalls).
  fold new_id in Hrun, Hd. split.
  - intros pre item post row Hitems Hp Hrow Hneg.
    rewrite Hitems in Hrun, Hv.
    destruct (adjust_rows_fail (variants w) pre item post row Hp Hrow Hneg) as [Ho Hk].
    rewrite Ho in Hrun. exists w', cs.
    repeat split; try done; [apply next_rowid_fresh|].
    intros k. by rewrite Hv, Hk.
  - intros Hp.
    destruct (adjust_rows_pass _ _ Hp) as [Ho Hk].
    rewrite Ho in Hrun. exists w', cs.
    repeat split; try done; [apply next_rowid_fresh|].
    intros k. by rewrite Hv, Hk.
Qed.

Lemma adjustment_checks_while_applying_witness :
  ∃ w', create_adjustment_order
          (sample.doc "ADJUST" [sample.line 1 (-2); sample.line 1 (-9)]) (sample.store 10) =
          (w', Raised (mk_exn BusinessRuleViolation (MsgNegativeAfterAdjust "US 9.5 / Red"))) ∧
        variants w' !! 1 = Some (sample.shoe 8) ∧
        is_Some (documents w' !! 1).
Proof.
  destruct (adjustment_checks_while_applying
              (sample.doc "ADJUST" [sample.line 1 (-2); sample.line 1 (-9)])
              (sample.store 10) eq_refl) as [Hfail _].
  destruct (Hfail [sample.line 1 (-2)] (sample.line 1 (-9)) [] (sample.shoe 10))
    as (w' & cs & Hrun & _ & _ & Hd & Hv).
  - reflexivity.
  - intros pre item post row Hsplit Hrow.
    destruct pre as [|x [|y pre]]; simplify_eq/=.
    vm_compute in Hrow. simplify_eq. vm_compute. discriminate.
  - reflexivity.
  - vm_compute. reflexivity.
  - exists w'. split; [exact Hrun|]. split.
    + rewrite Hv. reflexivity.
    + rewrite Hd. vm_compute. by eexists.
Defined.

(** C10. In [create_adjustment_order] an item whose variant is not in the
    store is passed over without an error and without a log record: the
    operation leaves the variants table and the log, and raises or
    returns, exactly as it does on the document without that item, so the
    remaining items are processed; the variant stays absent, and the
    document is persisted with the item among its rows. *)
Theorem adjustment_skips_missing_variant
    (document : Document.t) (w : World) pre item post :
  Document.doc_type document = "ADJUST" →
  Document.items document = pre ++ item :: post →
  variants w !! DocumentItem.variant_id item = None →
  let new_id := document_repo.next_rowid (document_repo.document_rowids w) in
  let without :=
    Document.mk (Document.doc_type document) (Document.doc_date document) (pre ++ post)
      (Document.note document) (Document.id document) (Document.created_at document) in
  let r := create_adjustment_order document w in
  let r0 := create_adjustment_order without w in
  variants (world_of r) = variants (world_of r0) ∧
  log (world_of r) = log (world_of r0) ∧
  variants (world_of r) !! DocumentItem.variant_id item = None ∧
  (∀ e, outcome_of r = Raised e ↔ outcome_of r0 = Raised e) ∧
  (outcome_of r = Returned (Document.set_id new_id document) ↔
   outcome_of r0 = Returned (Document.set_id new_id without)) ∧
  documents (world_of r) = <[new_id := persisted_row w document]> (documents w) ∧
  (DocumentItem.variant_id item, DocumentItem.quantity item) ∈
    (λ row, (item_variant_id row, item_quantity row)) <$>
      row_items (persisted_row w document).
Proof.
  intros Hty Hitems Hk new_id without r r0.
  destruct (create_adjustment_order_run document w Hty)
    as (w' & cs & Hrun & Hv & Hd & Hlog & _).
  destruct (create_adjustment_order_run without w Hty)
    as (w0 & cs0 & Hrun0 & Hv0 & _ & Hlog0 & _).
  fold new_id in Hrun, Hrun0, Hd, Hlog, Hlog0.
  subst r r0. rewrite Hrun, Hrun0. simpl.
  rewrite Hitems in Hrun, Hv, Hlog |- *.
  rewrite adjust_rows_skip in Hv, Hlog |- * by done.
  simpl in Hv0, Hlog0.
  repeat split.
  - congruence.
  - congruence.
  - rewrite Hv. by apply adjust_rows_missing.
  - by destruct (adjust_rows (variants w) (pre ++ post)).2.
  - by destruct (adjust_rows (variants w) (pre ++ post)).2.
  - by destruct (adjust_rows (variants w) (pre ++ post)).2.
  - by destruct (adjust_rows (variants w) (pre ++ post)).2.
  - done.
  - generalize (document_repo.next_rowid (document_repo.item_rowids w)).
    clear. induction pre as [|x pre IH]; intros n; simpl.
    + apply elem_of_cons. by left.
    + apply elem_of_cons. right. apply IH.
Qed.

Lemma adjustment_skips_missing_variant_witness :
  let r := create_adjustment_order
             (sample.doc "ADJUST" [sample.line 1 (-2); sample.line 7 4; sample.line 1 1])
             (sample.store 10) in
  outcome_of r =
    Returned (Document.set_id 1
                (sample.doc "ADJUST" [sample.line 1 (-2); sample.line 7 4; sample.line 1 1])) ∧
  variants (world_of r) !! 7 = None.
Proof.
  destruct (adjustment_skips_missing_variant
              (sample.doc "ADJUST" [sample.line 1 (-2); sample.line 7 4; sample.line 1 1])
              (sample.store 10) [sample.line 1 (-2)] (sample.line 7 4) [sample.line 1 1])
    as (_ & _ & Hmiss & _ & Hret & _).
  - reflexivity.
  - reflexivity.
  - reflexivity.
  - split; [|exact Hmiss]. apply Hret. vm_compute. reflexivity.
Defined.

(** ** The dict of net impacts *)

Lemma dict_get_set d k v k' default :
  dict_get (dict_set d k v) k' default =
  if decide (k = k') then v else dict_get d k' default.
Proof.
  induction d as [|[k0 v0] d IH]; simpl.
  - done.
  - destruct (decide (k0 = k)) as [->|Hne]; simpl.
    + by destruct (decide (k = k')).
    + rewrite IH. destruct (decide (k0 = k')) as [->|Hne']; [|done].
      by rewrite decide_False.
Qed.

Lemma dict_set_keys d k v k' :
  k' ∈ (dict_set d k v).*1 ↔ k' = k ∨ k' ∈ d.*1.
Proof.
  induction d as [|[k0 v0] d IH]; simpl.
  - rewrite list_elem_of_singleton. split; [by left|]. intros [?|H]; [done|].
    by apply elem_of_nil in H.
  - destruct (decide (k0 = k)) as [->|Hne]; simpl; rewrite !elem_of_cons.
    + tauto.
    + rewrite IH. tauto.
Qed.

Lemma dict_set_NoDup d k v : NoDup d.*1 → NoDup (dict_set d k v).*1.
Proof.
  induction d as [|[k0 v0] d IH]; simpl; intros Hnd.
  - apply NoDup_singleton.
  - apply NoDup_cons in Hnd as [Hnotin Hnd].
    destruct (decide (k0 = k)) as [->|Hne]; simpl.
    + by apply NoDup_cons.
    + apply NoDup_cons. split; [|by apply IH].
      rewrite dict_set_keys. intros [?|?]; done.
Qed.

Lemma dict_get_missing d k default : k ∉ d.*1 → dict_get d k default = default.
Proof.
  induction d as [|[k0 v0] d IH]; simpl; [done|].
  rewrite not_elem_of_cons. intros [Hne Hnotin].
  rewrite decide_False by done. by apply IH.
Qed.

Lemma dict_get_elem d k v : NoDup d.*1 → (k, v) ∈ d → dict_get d k 0 = v.
Proof.
  induction d as [|[k0 v0] d IH]; simpl; intros Hnd Hin.
  - by apply elem_of_nil in Hin.
  - apply NoDup_cons in Hnd as [Hnotin Hnd].
    apply elem_of_cons in Hin as [Heq|Hin].
    + injection Heq as -> ->. by rewrite decide_True.
    + rewrite decide_False; [by apply IH|].
      intros ->. apply Hnotin. apply list_elem_of_fmap. by exists (k, v).
Qed.

Lemma compute_impacts_foldl doc :
  compute_impacts doc = foldl (impact_step (Document.doc_type doc)) [] (Document.items doc).
Proof. reflexivity. Qed.

Lemma impacts_get ty items k : ∀ d,
  dict_get (foldl (impact_step ty) d items) k 0 = dict_get d k 0 + net_change ty k items.
Proof.
  induction items as [|item rest IH]; intros d; simpl; [lia|].
  rewrite IH. unfold impact_step. rewrite dict_get_set.
  destruct (decide (DocumentItem.variant_id item = k)) as [<-|Hne]; lia.
Qed.

Lemma impacts_NoDup ty items : ∀ d,
  NoDup d.*1 → NoDup (foldl (impact_step ty) d items).*1.
Proof.
  induction items as [|item rest IH]; intros d Hnd; simpl; [done|].
  apply IH. by apply dict_set_NoDup.
Qed.

Lemma impacts_keys ty items k : ∀ d,
  k ∈ (foldl (impact_step ty) d items).*1 ↔
  k ∈ d.*1 ∨ k ∈ DocumentItem.variant_id <$> items.
Proof.
  induction items as [|item rest IH]; intros d; simpl.
  - split; [by left|]. intros [?|H]; [done|]. by apply elem_of_nil in H.
  - rewrite IH. unfold impact_step. rewrite dict_set_keys, elem_of_cons. tauto.
Qed.

Lemma net_change_quantity ty k items :
  net_change ty k items =
  if decide (ty = "INBOUND") then - net_quantity k items
  else if decide (ty = "OUTBOUND") then net_quantity k items
  else if decide (ty = "ADJUST") then - net_quantity k items
  else 0.
Proof.
  induction items as [|item rest IH]; simpl.
  - by repeat destruct (decide _).
  - rewrite IH. unfold rollback_change.
    destruct (decide (DocumentItem.variant_id item = k));
      repeat destruct (decide (ty = _)); lia.
Qed.

(** ** Deletion: the strict check *)

Lemma strict_check_run entry w :
  strict_check entry w =
  (mk_world (variants w) (documents w)
     (calls w ++ (GetVariantById <$> negative_keys [entry])) (log w),
   match variants w !! entry.1 with
   | Some row =>
       if decide (rollback_short (variants w) entry)
       then Raised (rollback_error entry.1 row entry.2) else Returned tt
   | None => Returned tt
   end).
Proof.
  destruct entry as [vid change].
  unfold strict_check, negative_keys, rollback_error. rewrite filter_cons, filter_nil. simpl.
  destruct (decide (change < 0)) as [Hneg|Hpos]; simpl.
  - unfold bind. rewrite get_variant_by_id_run. simpl.
    destruct (variants w !! vid) as [row|] eqn:Hk; simpl; [|done].
    destruct (decide (row_stock_qty row + change < 0)) as [Hs|Hs].
    + rewrite decide_True; [done|]. split; [done|]. by exists row.
    + rewrite decide_False; [done|]. intros (_ & r & Hr & ?). simpl in Hr.
      by simplify_eq.
  - unfold ret. rewrite app_nil_r.
    destruct (variants w !! vid) as [row|]; [|by destruct w].
    rewrite decide_False by (intros [? _]; done). by destruct w.
Qed.

Lemma negative_keys_cons entry impacts :
  negative_keys (entry :: impacts) = negative_keys [entry] ++ negative_keys impacts.
Proof.
  unfold negative_keys. rewrite !filter_cons, filter_nil.
  by destruct (decide (entry.2 < 0)).
Qed.

Lemma strict_check_loop_run impacts : ∀ w,
  ∃ w' n,
    same_tables w w' ∧ log w' = log w ∧
    calls w' = calls w ++ (GetVariantById <$> take n (negative_keys impacts)) ∧
    ((∃ entry row,
        for_each strict_check impacts w =
          (w', Raised (rollback_error entry.1 row entry.2)) ∧
        entry ∈ impacts ∧ variants w !! entry.1 = Some row ∧
        rollback_short (variants w) entry) ∨
     (for_each strict_check impacts w = (w', Returned tt) ∧
      Forall (λ entry, ¬ rollback_short (variants w) entry) impacts ∧
      n = length (negative_keys impacts))).
Proof.
  induction impacts as [|entry rest IH]; intros w.
  - exists w, 0%nat. split_and!; try done; [by rewrite app_nil_r|]. right. by split_and!.
  - rewrite for_each_cons, strict_check_run. rewrite negative_keys_cons.
    set (w1 := mk_world _ _ _ _).
    destruct (decide (rollback_short (variants w) entry)) as [Hshort|Hok].
    + destruct Hshort as (Hneg & row & Hrow & Hlt). rewrite Hrow.
      exists w1, (length (negative_keys [entry])). split_and!; try done.
      * simpl. by rewrite take_app_length.
      * left. exists entry, row. split_and!; try done.
        -- apply elem_of_cons. by left.
        -- split; [done|]. by exists row.
    + assert (∀ o : option VariantRow,
                match o with Some _ => Returned tt | None => Returned tt end
                = Returned tt) as -> by (by intros []).
      destruct (IH w1) as (w' & n & Htab & Hlog & Hcalls & Hcase).
      exists w', (length (negative_keys [entry]) + n)%nat. simpl in *.
      split_and!; try done.
      * rewrite Hcalls, <- app_assoc, <- fmap_app. do 2 f_equal.
        by rewrite take_app_add.
      * destruct Hcase as [(e & row & Hrun & Hin & Hrow & Hshort)|(Hrun & Hall & Hn)].
        -- left. exists e, row. split_and!; try done. apply elem_of_cons. by right.
        -- right. split_and!; try done.
           ++ by apply Forall_cons.
           ++ rewrite length_app. lia.
Qed.

(** ** Deletion: applying the impacts *)

Lemma apply_rollback_run vid change w :
  ∃ cs,
    apply_rollback (vid, change) w =
    (mk_world
       (match variants w !! vid with
        | Some row => <[vid := row_add_stock change row]> (variants w)
        | None => variants w
        end)
       (documents w) (calls w ++ cs) (log w),
     Returned tt) ∧
    (change = 0 → cs = []) ∧
    (change ≠ 0 →
     cs = GetVariantById vid ::
          match variants w !! vid with
          | Some row =>
              [UpdateVariant
                 (Variant.set_stock_qty (row_stock_qty row + change)
                    (product_repo._map_row_to_variant vid row))]
          | None => []
          end).
Proof.
  unfold apply_rollback.
  destruct (decide (change = 0)) as [->|Hne].
  - exists []. split; [|done]. unfold ret. rewrite app_nil_r.
    destruct (variants w !! vid) as [row|] eqn:Hk.
    + rewrite row_add_stock_0, insert_id by done. by destruct w.
    + by destruct w.
  - unfold bind. rewrite get_variant_by_id_run.
    destruct (variants w !! vid) as [row|] eqn:Hk; simpl.
    + rewrite (update_fetched_run _ row) by done. simpl.
      replace (row_stock_qty row + change - row_stock_qty row) with change by lia.
      eexists. split; [by rewrite <- app_assoc|]. split; [done|reflexivity].
    + eexists. split; [reflexivity|]. split; [done|reflexivity].
Qed.

Lemma apply_rollback_loop_run impacts : ∀ w,
  NoDup impacts.*1 →
  ∃ w' cs,
    for_each apply_rollback impacts w = (w', Returned tt) ∧
    (∀ k, variants w' !! k =
          row_add_stock (dict_get impacts k 0) <$> variants w !! k) ∧
    documents w' = documents w ∧ log w' = log w ∧ calls w' = calls w ++ cs.
Proof.
  induction impacts as [|[vid change] rest IH]; intros w Hnd.
  - exists w, []. repeat split; [|by rewrite app_nil_r].
    intros k. simpl. destruct (variants w !! k); simpl; [|done].
    by rewrite row_add_stock_0.
  - apply NoDup_cons in Hnd as [Hnotin Hnd].
    rewrite for_each_cons.
    destruct (apply_rollback_run vid change w) as (cs & -> & _).
    match goal with |- context [for_each _ _ ?w1] =>
      destruct (IH w1 Hnd) as (w' & cs' & Hrun & Hv & Hd & Hlog & Hcalls) end.
    simpl in *. exists w', (cs ++ cs'). rewrite Hrun.
    repeat split; try done; [|by rewrite Hcalls, <- app_assoc].
    intros k. rewrite Hv. destruct (decide (vid = k)) as [<-|Hne].
    + rewrite (dict_get_missing rest) by done.
      destruct (variants w !! vid) as [row|] eqn:Hk.
      * rewrite lookup_insert_eq. simpl. by rewrite row_add_stock_0.
      * by rewrite Hk.
    + destruct (variants w !! vid) as [row|] eqn:Hk; [|done].
      by rewrite lookup_insert_ne.
Qed.

(** ** Deletion: the whole operation *)

Lemma add_items_foldl rows : ∀ d,
  foldl (λ document r, Document.add_item (document_repo.item_of_row r) document) d rows =
  Document.mk (Document.doc_type d) (Document.doc_date d)
    (Document.items d ++ (document_repo.item_of_row <$> rows))
    (Document.note d) (Document.id d) (Document.created_at d).
Proof.
  induction rows as [|r rows IH]; intros d; simpl.
  - rewrite app_nil_r. by destruct d.
  - rewrite IH. simpl. by rewrite <- app_assoc.
Qed.

Lemma get_document_by_id_run doc_id w :
  document_repo.get_document_by_id doc_id w =
  (mk_world (variants w) (documents w) (calls w ++ [GetDocumentById doc_id]) (log w),
   Returned (fetched (variants w) doc_id <$> documents w !! doc_id)).
Proof.
  unfold document_repo.get_document_by_id, bind, called; simpl.
  do 2 f_equal. destruct (documents w !! doc_id) as [row|]; simpl; [|done].
  by rewrite add_items_foldl.
Qed.

Lemma delete_document_found doc_id w row :
  documents w !! doc_id = Some row →
  let impacts := compute_impacts (fetched (variants w) doc_id row) in
  delete_document doc_id w =
  (for_each strict_check impacts ;;;
   for_each apply_rollback impacts ;;;
   document_repo.delete_document doc_id ;;;
   logged (LogInfoDeleted doc_id))
    (mk_world (variants w) (documents w) (calls w ++ [GetDocumentById doc_id]) (log w)).
Proof.
  intros Hdoc. unfold delete_document, bind at 1.
  by rewrite get_document_by_id_run, Hdoc.
Qed.

Lemma delete_document_run doc_id w row :
  documents w !! doc_id = Some row →
  let impacts := compute_impacts (fetched (variants w) doc_id row) in
  ∃ w' n,
    (∃ entry row',
       delete_document doc_id w = (w', Raised (rollback_error entry.1 row' entry.2)) ∧
       entry ∈ impacts ∧ variants w !! entry.1 = Some row' ∧
       rollback_short (variants w) entry ∧
       same_tables w w' ∧ log w' = log w ∧
       calls w' = calls w ++ GetDocumentById doc_id ::
                    (GetVariantById <$> take n (negative_keys impacts))) ∨
    (delete_document doc_id w = (w', Returned tt) ∧
     Forall (λ entry, ¬ rollback_short (variants w) entry) impacts ∧
     (∀ k, variants w' !! k =
           row_add_stock (dict_get impacts k 0) <$> variants w !! k) ∧
     documents w' = delete doc_id (documents w) ∧
     log w' = log w ++ [LogInfoDeleted doc_id] ∧
     ∃ cs, calls w' = calls w ++ GetDocumentById doc_id ::
                        (GetVariantById <$> negative_keys impacts) ++ cs ++
                        [DeleteDocument doc_id]).
Proof.
  intros Hdoc impacts.
  pose proof (delete_document_found doc_id w row Hdoc) as Heq.
  fold impacts in Heq. unfold bind at 1 in Heq.
  match type of Heq with context [for_each strict_check _ ?w1] =>
    destruct (strict_check_loop_run impacts w1)
      as (w2 & n & [Hv Hd] & Hlog & Hcalls &
          [(entry & vrow & Hrun & Hin & Hrow & Hshort)|(Hrun & Hall & Hn)])
  end; simpl in *; rewrite Hrun in Heq.
  - exists w2, n. left. exists entry, vrow. split_and!; try done.
    by rewrite Hcalls, <- app_assoc.
  - unfold bind at 1 in Heq.
    destruct (apply_rollback_loop_run impacts w2)
      as (w3 & cs & Hrun3 & Hv3 & Hd3 & Hlog3 & Hcalls3).
    { unfold impacts. rewrite compute_impacts_foldl. apply impacts_NoDup, NoDup_nil_2. }
    rewrite Hrun3 in Heq.
    unfold document_repo.delete_document, bind, called, logged in Heq; simpl in Heq.
    eexists _, n. right. split; [exact Heq|]. simpl.
    split_and!; try done.
    + intros k. by rewrite Hv3, Hv.
    + congruence.
    + congruence.
    + exists cs. rewrite Hcalls3, Hcalls, Hn, firstn_all.
      by rewrite <- !app_assoc.
Qed.

Lemma negative_keys_elem impacts k :
  k ∈ negative_keys impacts ↔ ∃ change, (k, change) ∈ impacts ∧ change < 0.
Proof.
  unfold negative_keys. rewrite list_elem_of_fmap. split.
  - intros ([k' c] & -> & Hin). apply list_elem_of_filter in Hin as [Hneg Hin].
    by exists c.
  - intros (c & Hin & Hneg). exists (k, c). split; [done|].
    by apply list_elem_of_filter.
Qed.

(** C3. [delete_document] on a persisted document computes the net
    impacts and then checks, before any write, every variant whose net
    impact is negative: if one that is in the store would end below zero
    the deletion raises [BusinessRuleViolation] (variant name, current
    stock, amount to take back), both tables are left as they were, the
    document is still there, and only reads were made.  If none would,
    the deletion goes through.  The check reads no variant whose net
    impact is zero or positive. *)
Theorem rollback_is_checked_before_any_change doc_id w row :
  documents w !! doc_id = Some row →
  let impacts := compute_impacts (fetched (variants w) doc_id row) in
  (Exists (rollback_short (variants w)) impacts →
   ∃ w' vid change vrow n,
     delete_document doc_id w =
       (w', Raised (mk_exn BusinessRuleViolation
                      (MsgRollbackShort
                         (Variant.display_name (product_repo._map_row_to_variant vid vrow))
                         (row_stock_qty vrow) (Z.abs change)))) ∧
     (vid, change) ∈ impacts ∧ change < 0 ∧
     variants w !! vid = Some vrow ∧ row_stock_qty vrow + change < 0 ∧
     variants w' = variants w ∧ documents w' = documents w ∧
     documents w' !! doc_id = Some row ∧
     calls w' = calls w ++ GetDocumentById doc_id ::
                  (GetVariantById <$> take n (negative_keys impacts))) ∧
  (¬ Exists (rollback_short (variants w)) impacts →
   ∃ w',
     delete_document doc_id w = (w', Returned tt) ∧
     documents w' = delete doc_id (documents w) ∧
     ∀ k, variants w' !! k = row_add_stock (dict_get impacts k 0) <$> variants w !! k) ∧
  (∀ u, ∃ n,
     calls (world_of (for_each strict_check impacts u)) =
     calls u ++ (GetVariantById <$> take n (negative_keys impacts))) ∧
  (∀ k, k ∈ negative_keys impacts ↔ ∃ change, (k, change) ∈ impacts ∧ change < 0).
Proof.
  intros Hdoc impacts.
  destruct (delete_document_run doc_id w row Hdoc) as (w' & n & Hcase).
  fold impacts in Hcase. split_and!.
  - intros Hex.
    destruct Hcase
      as [(entry & vrow & Hrun & Hin & Hrow & Hshort & [Hv Hd] & _ & Hcalls)|(_ & Hall & _)].
    + destruct entry as [vid change]. destruct Hshort as (Hneg & vrow' & Hrow' & Hlt).
      simpl in *. simplify_eq. exists w', vid, change, vrow, n.
      split_and!; try done. by rewrite Hd.
    + exfalso. apply Exists_exists in Hex as (entry & Hin & Hshort).
      rewrite Forall_forall in Hall. by apply (Hall entry).
  - intros Hnex.
    destruct Hcase as [(entry & vrow & _ & Hin & _ & Hshort & _)|(Hrun & _ & Hv & Hd & _)].
    + exfalso. apply Hnex, Exists_exists. by exists entry.
    + by exists w'.
  - intros u.
    destruct (strict_check_loop_run impacts u) as (u' & m & _ & _ & Hcalls & Hcase').
    exists m. by destruct Hcase' as [(entry & vrow & -> & _)|(-> & _)].
  - apply negative_keys_elem.
Qed.

Lemma rollback_is_checked_witness :
  let w := mk_world {[ 1 := sample.shoe 3 ]}
             {[ 1 := mk_document_row "INBOUND" (mk_date 2026 1 7) "" None
                       [mk_item_row 1 1 5 (S754_zero false)] ]} [] [] in
  ∃ w', delete_document 1 w =
          (w', Raised (mk_exn BusinessRuleViolation (MsgRollbackShort "US 9.5 / Red" 3 5))) ∧
        variants w' = variants w ∧ documents w' = documents w.
Proof.
  intros w.
  destruct (rollback_is_checked_before_any_change 1 w
              (mk_document_row "INBOUND" (mk_date 2026 1 7) "" None
                 [mk_item_row 1 1 5 (S754_zero false)]) eq_refl) as (Hfail & _).
  destruct Hfail as (w' & vid & change & vrow & n & Hrun & Hin & _ & Hrow & _ & Hv & Hd & _).
  - apply Exists_cons_hd. split; [done|].
    exists (sample.shoe 3). split; [reflexivity|done].
  - apply list_elem_of_singleton in Hin. injection Hin as -> ->.
    injection Hrow as <-. by exists w'.
Defined.

(** ** Deletion: a round trip *)

Lemma item_rows_net_quantity k items : ∀ n,
  net_quantity k (document_repo.item_of_row <$> document_repo.item_rows n items) =
  net_quantity k items.
Proof.
  induction items as [|item rest IH]; intros n; simpl; [done|].
  by rewrite IH.
Qed.

Lemma item_rows_variant_ids items : ∀ n,
  item_variant_id <$> document_repo.item_rows n items =
  DocumentItem.variant_id <$> items.
Proof.
  induction items as [|item rest IH]; intros n; simpl; [done|].
  by rewrite IH.
Qed.

Lemma joined_items_all vs row :
  Forall (λ r, is_Some (vs !! item_variant_id r)) (row_items row) →
  document_repo.joined_items vs row = row_items row.
Proof.
  unfold document_repo.joined_items.
  induction (row_items row) as [|r rows IH]; intros Hall; [done|].
  apply Forall_cons in Hall as [Hr Hall].
  rewrite filter_cons_True by done. by rewrite IH.
Qed.

(** C5, as amended.  Creating an INBOUND document whose referenced
    variants all exist, each with a stock that is not negative, and then
    deleting the document the engine returned brings the store back:
    both operations return, every variant has the row it had before the
    creation and the document is gone. *)
Theorem inbound_then_delete_restores_stock (document : Document.t) (w : World) :
  Document.doc_type document = "INBOUND" →
  (∀ item, item ∈ Document.items document →
           ∃ row, variants w !! DocumentItem.variant_id item = Some row ∧
                  0 ≤ row_stock_qty row) →
  let new_id := document_repo.next_rowid (document_repo.document_rowids w) in
  ∃ w1 w2,
    create_inbound_order document w = (w1, Returned (Document.set_id new_id document)) ∧
    (∀ k, row_stock_qty <$> variants w1 !! k =
          (λ row, row_stock_qty row + net_quantity k (Document.items document))
            <$> variants w !! k) ∧
    delete_document new_id w1 = (w2, Returned tt) ∧
    variants w2 = variants w ∧ documents w2 = documents w.
Proof.
  intros Hty Hexist new_id.
  destruct (create_inbound_order_run document w Hty) as (w1 & Hrun1 & Hv1 & Hfresh & Hd1 & _).
  fold new_id in Hrun1, Hfresh, Hd1.
  assert (documents w1 !! new_id = Some (persisted_row w document)) as Hdoc
    by (by rewrite Hd1, lookup_insert_eq).
  assert (document_repo.joined_items (variants w1) (persisted_row w document) =
          row_items (persisted_row w document)) as Hjoin.
  { apply joined_items_all. simpl. apply Forall_forall. intros r Hr.
    assert (item_variant_id r ∈ DocumentItem.variant_id <$> Document.items document) as Hin.
    { rewrite <- (item_rows_variant_ids _
                   (document_repo.next_rowid (document_repo.item_rowids w))).
      apply list_elem_of_fmap. by exists r. }
    apply list_elem_of_fmap in Hin as (item & -> & Hitem).
    destruct (Hexist item Hitem) as (row & Hrow & _).
    rewrite Hv1, Hrow. by eexists. }
  set (impacts := compute_impacts (fetched (variants w1) new_id (persisted_row w document))).
  assert (∀ k, dict_get impacts k 0 = - net_quantity k (Document.items document)) as Hget.
  { intros k. unfold impacts. rewrite compute_impacts_foldl, impacts_get. simpl.
    rewrite net_change_quantity, decide_True by done.
    rewrite Hjoin. simpl. by rewrite item_rows_net_quantity. }
  assert (∀ k, k ∈ impacts.*1 → k ∈ DocumentItem.variant_id <$> Document.items document)
    as Hkeys.
  { intros k Hk. unfold impacts in Hk. rewrite compute_impacts_foldl in Hk.
    apply impacts_keys in Hk as [Hk|Hk]; [by apply elem_of_nil in Hk|].
    simpl in Hk. rewrite Hjoin in Hk. simpl in Hk.
    rewrite <- list_fmap_compose in Hk.
    rewrite <- (item_rows_variant_ids _
                  (document_repo.next_rowid (document_repo.item_rowids w))).
    exact Hk. }
  assert (NoDup impacts.*1) as Hnd.
  { unfold impacts. rewrite compute_impacts_foldl. apply impacts_NoDup, NoDup_nil_2. }
  assert (∀ entry, entry ∈ impacts → ¬ rollback_short (variants w1) entry) as Hpass.
  { intros [k c] Hin (Hneg & row1 & Hrow1 & Hlt). simpl in *.
    assert (k ∈ impacts.*1) as Hk by (apply list_elem_of_fmap; by exists (k, c)).
    apply Hkeys, list_elem_of_fmap in Hk as (item & -> & Hitem).
    destruct (Hexist item Hitem) as (row & Hrow & Hnonneg).
    rewrite Hv1, Hrow in Hrow1. simpl in Hrow1. injection Hrow1 as <-.
    pose proof (dict_get_elem _ _ _ Hnd Hin) as Hc. rewrite Hget in Hc.
    simpl in Hlt. lia. }
  destruct (delete_document_run new_id w1 _ Hdoc) as (w2 & n & Hcase).
  fold impacts in Hcase.
  destruct Hcase as [(entry & vrow & _ & Hin & _ & Hshort & _)|(Hrun2 & _ & Hv2 & Hd2 & _)].
  { exfalso. by apply (Hpass entry). }
  exists w1, w2. split_and!; try done.
  - intros k. rewrite Hv1. by destruct (variants w !! k).
  - apply map_eq. intros k. rewrite Hv2, Hv1, Hget.
    destruct (variants w !! k) as [row|]; simpl; [|done].
    rewrite row_add_stock_add, Z.add_opp_diag_r. by rewrite row_add_stock_0.
  - rewrite Hd2, Hd1, delete_insert_eq. by apply delete_id.
Qed.

Lemma inbound_then_delete_witness :
  ∃ w1 w2,
    create_inbound_order (sample.doc "INBOUND" [sample.line 1 5]) (sample.store 10) =
      (w1, Returned (Document.set_id 1 (sample.doc "INBOUND" [sample.line 1 5]))) ∧
    row_stock_qty <$> variants w1 !! 1 = Some 15 ∧
    delete_document 1 w1 = (w2, Returned tt) ∧
    variants w2 = variants (sample.store 10).
Proof.
  destruct (inbound_then_delete_restores_stock
              (sample.doc "INBOUND" [sample.line 1 5]) (sample.store 10))
    as (w1 & w2 & Hrun1 & Hv1 & Hrun2 & Hv2 & _).
  - reflexivity.
  - intros item Hin. apply list_elem_of_singleton in Hin. subst item.
    exists (sample.shoe 10). split; [reflexivity|]. done.
  - exists w1, w2. split_and!; done.
Defined.

(** C5, as the claim has it, fails from a stock below zero.  The store
    an accepted OUTBOUND document of two lines of 3 leaves from stock 5
    has variant 1 at -1; an INBOUND document of 1 on that variant, which
    exists, is created and brings the stock to 0; its deletion computes
    the impact -1, finds 0 - 1 below zero and raises, so the stock stays
    0, not the -1 it was before the creation, and the document stays
    stored. *)
Lemma inbound_then_delete_from_negative_stock :
  let outbound := sample.doc "OUTBOUND" [sample.line 1 3; sample.line 1 3] in
  let w := world_of (create_outbound_order outbound (sample.store 5)) in
  let receipt := sample.doc "INBOUND" [sample.line 1 1] in
  let r1 := create_inbound_order receipt w in
  let r2 := delete_document 2 (world_of r1) in
  variants w !! 1 = Some (sample.shoe (-1)) ∧
  outcome_of r1 = Returned (Document.set_id 2 receipt) ∧
  variants (world_of r1) !! 1 = Some (sample.shoe 0) ∧
  outcome_of r2 =
    Raised (mk_exn BusinessRuleViolation (MsgRollbackShort "US 9.5 / Red" 0 1)) ∧
  variants (world_of r2) !! 1 = Some (sample.shoe 0) ∧
  variants (world_of r2) !! 1 ≠ variants w !! 1 ∧
  is_Some (documents (world_of r2) !! 2).
Proof. vm_compute. split_and!; try done. by eexists. Qed.

(** ** Deletion: the net impacts *)

(** C4. The dict of net impacts has one entry for each variant the
    document's items reference and no other; the entry of a variant is
    the sum, over the items that reference it, of the reversal delta:
    minus the quantity for INBOUND, the quantity for OUTBOUND, minus the
    quantity for ADJUST.  Two OUTBOUND items of 3 and 4 on one variant
    give the single entry +7, and deleting such a document reads and
    writes the variant once, adding 7. *)
Theorem net_impact_is_aggregated (doc : Document.t) :
  let impacts := compute_impacts doc in
  NoDup impacts.*1 ∧
  (∀ k, k ∈ impacts.*1 ↔ k ∈ DocumentItem.variant_id <$> Document.items doc) ∧
  (∀ k change, (k, change) ∈ impacts →
     change = net_change (Document.doc_type doc) k (Document.items doc)) ∧
  (∀ k, Document.doc_type doc = "INBOUND" →
     net_change (Document.doc_type doc) k (Document.items doc) =
     - net_quantity k (Document.items doc)) ∧
  (∀ k, Document.doc_type doc = "OUTBOUND" →
     net_change (Document.doc_type doc) k (Document.items doc) =
     net_quantity k (Document.items doc)) ∧
  (∀ k, Document.doc_type doc = "ADJUST" →
     net_change (Document.doc_type doc) k (Document.items doc) =
     - net_quantity k (Document.items doc)) ∧
  (∀ vid, Document.doc_type doc = "OUTBOUND" →
     (λ item, (DocumentItem.variant_id item, DocumentItem.quantity item))
       <$> Document.items doc = [(vid, 3); (vid, 4)] →
     impacts = [(vid, 7)]) ∧
  (let order := sample.doc "OUTBOUND" [sample.line 1 3; sample.line 1 4] in
   let w1 := world_of (create_outbound_order order (sample.store 10)) in
   let r := delete_document 1 w1 in
   variants w1 !! 1 = Some (sample.shoe 3) ∧
   outcome_of r = Returned tt ∧
   variants (world_of r) !! 1 = Some (sample.shoe 10) ∧
   drop (length (calls w1)) (calls (world_of r)) =
     [GetDocumentById 1; GetVariantById 1;
      UpdateVariant (product_repo._map_row_to_variant 1 (sample.shoe 10));
      DeleteDocument 1]).
Proof.
  intros impacts. unfold impacts. rewrite compute_impacts_foldl.
  split_and!.
  - apply impacts_NoDup, NoDup_nil_2.
  - intros k. rewrite impacts_keys. split; [|by right].
    intros [H|H]; [by apply elem_of_nil in H|done].
  - intros k change Hin.
    rewrite <- (dict_get_elem _ k change (impacts_NoDup _ _ [] (NoDup_nil_2)) Hin).
    by rewrite impacts_get.
  - intros k Hty. by rewrite net_change_quantity, decide_True.
  - intros k Hty. rewrite net_change_quantity, Hty. reflexivity.
  - intros k Hty. rewrite net_change_quantity, Hty. reflexivity.
  - intros vid Hty Hitems. rewrite Hty.
    destruct (Document.items doc) as [|i1 [|i2 [|i3 rest]]]; simplify_eq/=.
    unfold impact_step; simpl.
    rewrite !decide_True by done.
    repeat match goal with H : DocumentItem.quantity _ = _ |- _ => rewrite H; clear H end.
    reflexivity.
  - by vm_compute.
  - by vm_compute.
  - by vm_compute.
  - by vm_compute.
Qed.

Lemma net_impact_is_aggregated_witness :
  compute_impacts (sample.doc "OUTBOUND" [sample.line 1 3; sample.line 1 4]) = [(1, 7)].
Proof.
  destruct (net_impact_is_aggregated
              (sample.doc "OUTBOUND" [sample.line 1 3; sample.line 1 4]))
    as (_ & _ & _ & _ & _ & _ & Htwo & _).
  apply Htwo; reflexivity.
Defined.

(** ** Deletion: variants that are not in the store *)




(** * Further properties of the engine *)

(** ** Outbound: when a document is accepted *)

Lemma not_offending_Forall vs items :
  ¬ Exists (offending vs) items → Forall (λ item, ¬ offending vs item) items.
Proof.
  induction items as [|item rest IH]; intros Hnex; constructor.
  - intros Hoff. apply Hnex. by apply Exists_cons_hd.
  - apply IH. intros Hex. apply Hnex. by apply Exists_cons_tl.
Qed.

(** X1. [create_outbound_order] accepts an OUTBOUND document exactly when
    every item, taken alone, finds its variant with at least the quantity
    it asks for.  The commit loop then never fails: the document is
    persisted and returned, every variant of the store has its stock less
    the sum of the quantities of the items that reference it, and no
    variant appears or disappears. *)
Theorem outbound_decreases_exactly (document : Document.t) (w : World) :
  Document.doc_type document = "OUTBOUND" →
  let new_id := document_repo.next_rowid (document_repo.document_rowids w) in
  ((∃ w' saved, create_outbound_order document w = (w', Returned saved)) ↔
   Forall (λ item, ¬ offending (variants w) item) (Document.items document)) ∧
  (∀ w' saved,
     create_outbound_order document w = (w', Returned saved) →
     saved = Document.set_id new_id document ∧
     documents w !! new_id = None ∧
     documents w' = <[new_id := persisted_row w document]> (documents w) ∧
     (∀ k row, variants w !! k = Some row →
        ∃ row', variants w' !! k = Some row' ∧
                row_stock_qty row' =
                row_stock_qty row - net_quantity k (Document.items document)) ∧
     (∀ k, variants w !! k = None → variants w' !! k = None)).
Proof.
  intros Hty new_id.
  assert (Forall (λ item, ¬ offending (variants w) item) (Document.items document) →
          ∃ w', create_outbound_order document w =
                  (w', Returned (Document.set_id new_id document)) ∧
                (∀ k, variants w' !! k =
                      row_add_stock (- net_quantity k (Document.items document))
                        <$> variants w !! k) ∧
                documents w' = <[new_id := persisted_row w document]> (documents w))
    as Hacc by apply (create_outbound_order_accepted document w Hty).
  assert ((∃ w' saved, create_outbound_order document w = (w', Returned saved)) →
          Forall (λ item, ¬ offending (variants w) item) (Document.items document))
    as Hret.
  { intros (w' & saved & Hrun).
    destruct (decide (Exists (offending (variants w)) (Document.items document)))
      as [Hex|Hnex]; [|by apply not_offending_Forall].
    exfalso.
    destruct (precheck_loop_fails _ w Hex) as (w1 & item & n & Hrun1 & _).
    unfold create_outbound_order in Hrun. rewrite decide_False in Hrun by (by intros []).
    unfold bind at 1 in Hrun. by rewrite Hrun1 in Hrun. }
  split.
  - split; [exact Hret|]. intros Hall.
    destruct (Hacc Hall) as (w' & Hrun & _). by exists w', (Document.set_id new_id document).
  - intros w' saved Hrun.
    destruct (Hacc (Hret (ex_intro _ w' (ex_intro _ saved Hrun)))) as (w2 & Hrun2 & Hv & Hd).
    rewrite Hrun in Hrun2. injection Hrun2 as <- ->.
    split_and!; try done.
    + apply next_rowid_fresh.
    + intros k row Hrow. rewrite Hv, Hrow. simpl. eexists. split; [done|]. simpl. lia.
    + intros k Hnone. by rewrite Hv, Hnone.
Qed.

Lemma outbound_decreases_exactly_witness :
  ∃ w', create_outbound_order (sample.doc "OUTBOUND" [sample.line 1 2]) (sample.store 2) =
          (w', Returned (Document.set_id 1 (sample.doc "OUTBOUND" [sample.line 1 2]))) ∧
        row_stock_qty <$> variants w' !! 1 = Some 0.
Proof.
  destruct (outbound_decreases_exactly
              (sample.doc "OUTBOUND" [sample.line 1 2]) (sample.store 2) eq_refl)
    as [[_ Hacc] Heff].
  destruct Hacc as (w' & saved & Hrun).
  { apply Forall_cons. split; [|apply Forall_nil_2]. vm_compute. discriminate. }
  destruct (Heff w' saved Hrun) as (-> & _ & _ & Hstock & _).
  destruct (Hstock 1 (sample.shoe 2) eq_refl) as (row' & Hrow' & Hqty).
  exists w'. split; [exact Hrun|]. rewrite Hrow'. simpl. by rewrite Hqty.
Defined.

(** ** Stock that stays non-negative *)

Lemma net_quantity_unreferenced k items :
  k ∉ DocumentItem.variant_id <$> items → net_quantity k items = 0.
Proof.
  induction items as [|item rest IH]; simpl; [done|].
  rewrite not_elem_of_cons. intros [Hne Hnotin].
  rewrite decide_False by (by intros <-). by apply IH.
Qed.

Lemma net_quantity_NoDup items item :
  NoDup (DocumentItem.variant_id <$> items) →
  item ∈ items →
  net_quantity (DocumentItem.variant_id item) items = DocumentItem.quantity item.
Proof.
  induction items as [|x rest IH]; intros Hnd Hin.
  - by apply elem_of_nil in Hin.
  - simpl in Hnd. apply NoDup_cons in Hnd as [Hnotin Hnd].
    apply elem_of_cons in Hin as [->|Hin]; simpl.
    + rewrite decide_True by done. rewrite net_quantity_unreferenced by done. lia.
    + rewrite decide_False; [by apply IH|].
      intros Heq. apply Hnotin. rewrite Heq. apply list_elem_of_fmap. by exists item.
Qed.

Lemma net_quantity_nonneg k items :
  Forall (λ item, 0 ≤ DocumentItem.quantity item) items → 0 ≤ net_quantity k items.
Proof.
  induction 1 as [|item rest Hq Hall IH]; simpl; [done|].
  destruct (decide _); lia.
Qed.

(** X2. When the items of a document reference pairwise distinct variants,
    [create_outbound_order] keeps every stock non-negative, whatever the
    type and the quantities of the document and whether the call returns
    or raises. *)
Theorem outbound_distinct_variants_keep_stock_nonnegative
    (document : Document.t) (w : World) :
  stock_nonnegative (variants w) →
  NoDup (DocumentItem.variant_id <$> Document.items document) →
  stock_nonnegative (variants (world_of (create_outbound_order document w))).
Proof.
  intros Hnn Hnd.
  destruct (decide (Document.doc_type document = "OUTBOUND")) as [Hty|Hty].
  2: { unfold create_outbound_order. by rewrite decide_True. }
  destruct (decide (Exists (offending (variants w)) (Document.items document)))
    as [Hex|Hnex].
  - destruct (precheck_loop_fails _ w Hex) as (w' & item & n & Hrun & _ & _ & [Hv _] & _).
    unfold create_outbound_order. rewrite decide_False by (by intros []).
    unfold bind at 1. rewrite Hrun. simpl. by rewrite Hv.
  - apply not_offending_Forall in Hnex.
    destruct (create_outbound_order_accepted document w Hty Hnex) as (w' & Hrun & Hv & _).
    rewrite Hrun. simpl. intros k row' Hrow'. rewrite Hv in Hrow'.
    destruct (variants w !! k) as [row|] eqn:Hk; simplify_eq/=.
    destruct (decide (k ∈ DocumentItem.variant_id <$> Document.items document))
      as [Hin|Hnotin].
    + apply list_elem_of_fmap in Hin as (item & -> & Hin).
      rewrite net_quantity_NoDup by done.
      rewrite Forall_forall in Hnex. specialize (Hnex item Hin).
      unfold offending in Hnex. rewrite Hk in Hnex. lia.
    + rewrite net_quantity_unreferenced by done. specialize (Hnn k row Hk). lia.
Qed.

Lemma outbound_distinct_variants_witness :
  stock_nonnegative
    (variants (world_of (create_outbound_order
                           (sample.doc "OUTBOUND" [sample.line 1 3]) (sample.store 5)))).
Proof.
  apply outbound_distinct_variants_keep_stock_nonnegative.
  - intros k row Hrow. destruct (decide (k = 1)) as [->|Hne].
    + vm_compute in Hrow. injection Hrow as <-. vm_compute. discriminate.
    + unfold sample.store in Hrow. simpl in Hrow.
      by rewrite lookup_singleton_ne in Hrow.
  - simpl. apply NoDup_singleton.
Defined.

Lemma adjust_rows_nonnegative items : ∀ vs,
  stock_nonnegative vs → stock_nonnegative (adjust_rows vs items).1.
Proof.
  induction items as [|item rest IH]; intros vs Hnn; [done|].
  simpl. destruct (vs !! DocumentItem.variant_id item) as [row|] eqn:Hk; [|by apply IH].
  destruct (decide _) as [Hneg|Hok]; [done|]. apply IH.
  intros k r Hr. destruct (decide (DocumentItem.variant_id item = k)) as [<-|Hne].
  - rewrite lookup_insert_eq in Hr. injection Hr as <-. simpl. lia.
  - rewrite lookup_insert_ne in Hr by done. by apply (Hnn k).
Qed.

(** X3. [create_adjustment_order] keeps every stock non-negative, on every
    document and whether it returns or raises: the deltas it has applied
    when it stops at an item are each within the stock. *)
Theorem adjustment_keeps_stock_nonnegative (document : Document.t) (w : World) :
  stock_nonnegative (variants w) →
  stock_nonnegative (variants (world_of (create_adjustment_order document w))).
Proof.
  intros Hnn.
  destruct (decide (Document.doc_type document = "ADJUST")) as [Hty|Hty].
  2: { unfold create_adjustment_order. by rewrite decide_True. }
  destruct (create_adjustment_order_run document w Hty) as (w' & cs & Hrun & Hv & _).
  rewrite Hrun. simpl. rewrite Hv. by apply adjust_rows_nonnegative.
Qed.

Lemma adjustment_keeps_stock_nonnegative_witness :
  stock_nonnegative
    (variants (world_of (create_adjustment_order
                           (sample.doc "ADJUST" [sample.line 1 (-2); sample.line 1 (-9)])
                           (sample.store 10)))).
Proof.
  apply adjustment_keeps_stock_nonnegative.
  intros k row Hrow. destruct (decide (k = 1)) as [->|Hne].
  - vm_compute in Hrow. injection Hrow as <-. vm_compute. discriminate.
  - unfold sample.store in Hrow. simpl in Hrow.
    by rewrite lookup_singleton_ne in Hrow.
Defined.

(** X4. [create_inbound_order] keeps every stock non-negative when no item
    of the document has a negative quantity (the operation itself does
    not look at the sign). *)
Theorem inbound_keeps_stock_nonnegative (document : Document.t) (w : World) :
  stock_nonnegative (variants w) →
  Forall (λ item, 0 ≤ DocumentItem.quantity item) (Document.items document) →
  stock_nonnegative (variants (world_of (create_inbound_order document w))).
Proof.
  intros Hnn Hq.
  destruct (decide (Document.doc_type document = "INBOUND")) as [Hty|Hty].
  2: { unfold create_inbound_order. by rewrite decide_True. }
  destruct (create_inbound_order_run document w Hty) as (w' & Hrun & Hv & _).
  rewrite Hrun. simpl. intros k row' Hrow'. rewrite Hv in Hrow'.
  destruct (variants w !! k) as [row|] eqn:Hk; simplify_eq/=.
  pose proof (net_quantity_nonneg k _ Hq). specialize (Hnn k row Hk). lia.
Qed.

Lemma inbound_keeps_stock_nonnegative_witness :
  stock_nonnegative
    (variants (world_of (create_inbound_order
                           (sample.doc "INBOUND" [sample.line 1 5]) (sample.store 10)))).
Proof.
  apply inbound_keeps_stock_nonnegative.
  - intros k row Hrow. destruct (decide (k = 1)) as [->|Hne].
    + vm_compute in Hrow. injection Hrow as <-. vm_compute. discriminate.
    + unfold sample.store in Hrow. simpl in Hrow.
      by rewrite lookup_singleton_ne in Hrow.
  - apply Forall_cons. split; [|apply Forall_nil_2]. vm_compute. discriminate.
Defined.

Lemma dict_get_in d k : dict_get d k 0 ≠ 0 → (k, dict_get d k 0) ∈ d.
Proof.
  induction d as [|[k0 v0] d IH]; simpl; [done|].
  destruct (decide (k0 = k)) as [->|Hne]; intros Hnz.
  - apply elem_of_cons. by left.
  - apply elem_of_cons. right. by apply IH.
Qed.

(** X5. [delete_document] keeps every stock non-negative, for every id and
    whether it returns or raises: what it takes back from a variant it
    has checked against the stock first. *)
Theorem deletion_keeps_stock_nonnegative (doc_id : Z) (w : World) :
  stock_nonnegative (variants w) →
  stock_nonnegative (variants (world_of (delete_document doc_id w))).
Proof.
  intros Hnn.
  destruct (documents w !! doc_id) as [row|] eqn:Hdoc.
  - destruct (delete_document_run doc_id w row Hdoc) as (w' & n & Hcase).
    destruct Hcase as [(entry & vrow & Hrun & _ & _ & _ & [Hv _] & _)
                      |(Hrun & Hall & Hv & _)]; rewrite Hrun; simpl.
    + by rewrite Hv.
    + intros k vrow' Hrow'. rewrite Hv in Hrow'.
      destruct (variants w !! k) as [vrow|] eqn:Hk; simplify_eq/=.
      specialize (Hnn k vrow Hk).
      set (impacts := compute_impacts _) in *.
      destruct (decide (dict_get impacts k 0 < 0)) as [Hneg|Hpos]; [|lia].
      assert ((k, dict_get impacts k 0) ∈ impacts) as Hin by (apply dict_get_in; lia).
      rewrite Forall_forall in Hall. specialize (Hall _ Hin).
      destruct (decide (0 ≤ row_stock_qty vrow + dict_get impacts k 0)); [done|].
      exfalso. apply Hall. split; [done|]. exists vrow. split; [done|]. simpl. lia.
  - unfold delete_document, bind. rewrite get_document_by_id_run, Hdoc. done.
Qed.

Lemma deletion_keeps_stock_nonnegative_witness :
  stock_nonnegative
    (variants (world_of (delete_document 1
       (mk_world {[ 1 := sample.shoe 3 ]}
          {[ 1 := mk_document_row "INBOUND" (mk_date 2026 1 7) "" None
                    [mk_item_row 1 1 5 (S754_zero false)] ]} [] [])))).
Proof.
  apply deletion_keeps_stock_nonnegative.
  intros k row Hrow. simpl in Hrow. destruct (decide (k = 1)) as [->|Hne].
  - vm_compute in Hrow. injection Hrow as <-. vm_compute. discriminate.
  - by rewrite lookup_singleton_ne in Hrow.
Defined.

(** ** Deleting a document that is not stored *)

(** X6. [delete_document] on an id that is not in the Document Store raises
    [EntityNotFoundError] after the one read, with nothing changed and
    nothing logged.  A deletion that returned has removed the document, so
    deleting the same id again raises that error and leaves both tables as
    they are: a document is never rolled back twice. *)
Theorem deleting_a_missing_document_fails :
  (∀ doc_id w,
     documents w !! doc_id = None →
     delete_document doc_id w =
     (mk_world (variants w) (documents w) (calls w ++ [GetDocumentById doc_id]) (log w),
      Raised (mk_exn EntityNotFoundError (MsgDocumentNotFound doc_id)))) ∧
  (∀ doc_id w w',
     delete_document doc_id w = (w', Returned tt) →
     is_Some (documents w !! doc_id) ∧
     documents w' !! doc_id = None ∧
     ∃ w'',
       delete_document doc_id w' =
         (w'', Raised (mk_exn EntityNotFoundError (MsgDocumentNotFound doc_id))) ∧
       variants w'' = variants w' ∧ documents w'' = documents w').
Proof.
  assert (∀ doc_id w,
            documents w !! doc_id = None →
            delete_document doc_id w =
            (mk_world (variants w) (documents w)
               (calls w ++ [GetDocumentById doc_id]) (log w),
             Raised (mk_exn EntityNotFoundError (MsgDocumentNotFound doc_id)))) as Hmiss.
  { intros doc_id w Hdoc. unfold delete_document, bind.
    by rewrite get_document_by_id_run, Hdoc. }
  split; [exact Hmiss|].
  intros doc_id w w' Hrun.
  destruct (documents w !! doc_id) as [row|] eqn:Hdoc.
  - destruct (delete_document_run doc_id w row Hdoc) as (w2 & n & Hcase).
    destruct Hcase as [(entry & vrow & Hrun' & _)|(Hrun' & _ & _ & Hd & _)];
      rewrite Hrun in Hrun'; [done|].
    injection Hrun' as ->.
    assert (documents w2 !! doc_id = None) as Hgone by (by rewrite Hd, lookup_delete_eq).
    split_and!; [by eexists|done|].
    eexists. split; [by apply Hmiss|]. by split.
  - by rewrite (Hmiss doc_id w Hdoc) in Hrun.
Qed.

Lemma deleting_a_missing_document_witness :
  ∃ w, delete_document 4 (sample.store 10) =
         (w, Raised (mk_exn EntityNotFoundError (MsgDocumentNotFound 4))) ∧
       variants w = variants (sample.store 10).
Proof.
  destruct deleting_a_missing_document_fails as [Hmiss _].
  eexists. split; [apply (Hmiss 4 (sample.store 10)); reflexivity|reflexivity].
Defined.

(** ** Deleting what only gives stock back *)

Lemma item_rows_net_change ty k items : ∀ n,
  net_change ty k (document_repo.item_of_row <$> document_repo.item_rows n items) =
  net_change ty k items.
Proof.
  induction items as [|item rest IH]; intros n; simpl; [done|].
  by rewrite IH.
Qed.

Lemma net_quantity_cons k item rest :
  net_quantity k (item :: rest) =
  if decide (DocumentItem.variant_id item = k)
  then DocumentItem.quantity item + net_quantity k rest else net_quantity k rest.
Proof. reflexivity. Qed.

Lemma joined_net_quantity vs row k :
  is_Some (vs !! k) →
  net_quantity k (document_repo.item_of_row <$> document_repo.joined_items vs row) =
  net_quantity k (document_repo.item_of_row <$> row_items row).
Proof.
  intros Hk. unfold document_repo.joined_items.
  induction (row_items row) as [|r rows IH]; [done|].
  rewrite filter_cons. destruct (decide (is_Some (vs !! item_variant_id r))) as [Hr|Hr].
  - by rewrite !fmap_cons, !net_quantity_cons, IH.
  - rewrite fmap_cons, net_quantity_cons, IH.
    rewrite decide_False; [done|]. intros Heq. apply Hr. simpl in Heq. by rewrite Heq.
Qed.

Lemma joined_items_quantities vs row :
  Forall (λ r, 0 ≤ item_quantity r) (row_items row) →
  Forall (λ item, 0 ≤ DocumentItem.quantity item)
    (document_repo.item_of_row <$> document_repo.joined_items vs row).
Proof.
  intros Hall. apply Forall_fmap. unfold document_repo.joined_items.
  induction Hall as [|r rows Hr Hall IH]; [done|].
  rewrite filter_cons. destruct (decide _); [|done]. by constructor.
Qed.

(** X7. The deletion of a stored OUTBOUND document whose quantities are not
    negative is never refused, whatever the stocks are now: every net
    impact gives stock back, so the strict check has nothing to stop at.
    The document is removed and every variant of the store gets back the
    sum of the quantities of the document's items on it. *)
Theorem deleting_outbound_is_never_refused (doc_id : Z) (w : World) (row : DocumentRow) :
  documents w !! doc_id = Some row →
  row_doc_type row = "OUTBOUND" →
  Forall (λ r, 0 ≤ item_quantity r) (row_items row) →
  ∃ w',
    delete_document doc_id w = (w', Returned tt) ∧
    documents w' = delete doc_id (documents w) ∧
    (∀ k vrow, variants w !! k = Some vrow →
       ∃ vrow', variants w' !! k = Some vrow' ∧
                row_stock_qty vrow' =
                row_stock_qty vrow +
                net_quantity k (document_repo.item_of_row <$> row_items row)) ∧
    (∀ k, variants w !! k = None → variants w' !! k = None).
Proof.
  intros Hdoc Hty Hq.
  destruct (delete_document_run doc_id w row Hdoc) as (w' & n & Hcase).
  set (impacts := compute_impacts (fetched (variants w) doc_id row)) in *.
  assert (∀ k, dict_get impacts k 0 =
               net_quantity k
                 (document_repo.item_of_row <$> document_repo.joined_items (variants w) row))
    as Hget.
  { intros k. unfold impacts. rewrite compute_impacts_foldl, impacts_get. simpl.
    rewrite net_change_quantity, Hty. reflexivity. }
  assert (NoDup impacts.*1) as Hnd.
  { unfold impacts. rewrite compute_impacts_foldl. apply impacts_NoDup, NoDup_nil_2. }
  destruct Hcase as [(entry & vrow & _ & Hin & _ & Hshort & _)|(Hrun & _ & Hv & Hd & _)].
  - exfalso. destruct entry as [k c]. destruct Hshort as (Hneg & _). simpl in Hneg.
    rewrite <- (dict_get_elem _ _ _ Hnd Hin), Hget in Hneg.
    pose proof (net_quantity_nonneg k _ (joined_items_quantities (variants w) row Hq)).
    lia.
  - exists w'. split_and!; try done.
    + intros k vrow Hk. rewrite Hv, Hk. simpl. eexists. split; [done|]. simpl.
      rewrite Hget. by rewrite joined_net_quantity by (by rewrite Hk).
    + intros k Hk. by rewrite Hv, Hk.
Qed.

Lemma deleting_outbound_witness :
  ∃ w', delete_document 1
          (mk_world {[ 1 := sample.shoe 0 ]}
             {[ 1 := mk_document_row "OUTBOUND" (mk_date 2026 1 7) "" None
                       [mk_item_row 1 1 2 (S754_zero false)] ]} [] []) =
          (w', Returned tt) ∧
        row_stock_qty <$> variants w' !! 1 = Some 2.
Proof.
  destruct (deleting_outbound_is_never_refused 1
              (mk_world {[ 1 := sample.shoe 0 ]}
                 {[ 1 := mk_document_row "OUTBOUND" (mk_date 2026 1 7) "" None
                           [mk_item_row 1 1 2 (S754_zero false)] ]} [] [])
              (mk_document_row "OUTBOUND" (mk_date 2026 1 7) "" None
                 [mk_item_row 1 1 2 (S754_zero false)]))
    as (w' & Hrun & _ & Hstock & _).
  - reflexivity.
  - reflexivity.
  - apply Forall_cons. split; [|apply Forall_nil_2]. vm_compute. discriminate.
  - destruct (Hstock 1 (sample.shoe 0) eq_refl) as (vrow' & Hrow' & Hqty).
    exists w'. split; [exact Hrun|]. rewrite Hrow'. simpl. by rewrite Hqty.
Defined.

(** ** Creating a document and deleting it *)

Lemma persisted_impacts (w : World) (vs1 : gmap Z VariantRow) (new_id : Z)
    (document : Document.t) :
  Forall (λ item, is_Some (vs1 !! DocumentItem.variant_id item))
    (Document.items document) →
  let impacts := compute_impacts (fetched vs1 new_id (persisted_row w document)) in
  NoDup impacts.*1 ∧
  (∀ k, dict_get impacts k 0 =
        net_change (Document.doc_type document) k (Document.items document)) ∧
  (∀ k change, (k, change) ∈ impacts →
     k ∈ DocumentItem.variant_id <$> Document.items document).
Proof.
  intros Hall impacts.
  assert (document_repo.joined_items vs1 (persisted_row w document) =
          row_items (persisted_row w document)) as Hjoin.
  { apply joined_items_all. simpl. apply Forall_forall. intros r Hr.
    assert (item_variant_id r ∈ DocumentItem.variant_id <$> Document.items document) as Hin.
    { rewrite <- (item_rows_variant_ids _
                   (document_repo.next_rowid (document_repo.item_rowids w))).
      apply list_elem_of_fmap. by exists r. }
    apply list_elem_of_fmap in Hin as (item & -> & Hitem).
    rewrite Forall_forall in Hall. by apply Hall. }
  unfold impacts. rewrite compute_impacts_foldl. simpl. rewrite Hjoin. simpl.
  split_and!.
  - apply impacts_NoDup, NoDup_nil_2.
  - intros k. by rewrite impacts_get, item_rows_net_change.
  - intros k change Hin.
    assert (k ∈ (foldl (impact_step (Document.doc_type document)) []
                   (document_repo.item_of_row <$>
                      document_repo.item_rows
                        (document_repo.next_rowid (document_repo.item_rowids w))
                        (Document.items document))).*1) as Hk
      by (apply list_elem_of_fmap; by exists (k, change)).
    apply impacts_keys in Hk as [Hk|Hk]; [by apply elem_of_nil in Hk|].
    rewrite <- list_fmap_compose in Hk.
    rewrite <- (item_rows_variant_ids _
                  (document_repo.next_rowid (document_repo.item_rowids w))).
    exact Hk.
Qed.

(** Deleting a document right after the operation that created it: if the
    creation shifted every stock by [d] and the reversal deltas sum to
    [- d], and nothing was taken from a stock that was negative, the
    deletion returns and both tables are those before the creation. *)
Lemma delete_undoes (w w1 : World) (document : Document.t) (d : Z → Z) :
  let new_id := document_repo.next_rowid (document_repo.document_rowids w) in
  (∀ k, variants w1 !! k = row_add_stock (d k) <$> variants w !! k) →
  documents w1 = <[new_id := persisted_row w document]> (documents w) →
  Forall (λ item, is_Some (variants w !! DocumentItem.variant_id item))
    (Document.items document) →
  (∀ k, net_change (Document.doc_type document) k (Document.items document) = - d k) →
  (∀ k row, variants w !! k = Some row → 0 ≤ row_stock_qty row ∨ d k ≤ 0) →
  ∃ w2, delete_document new_id w1 = (w2, Returned tt) ∧
        variants w2 = variants w ∧ documents w2 = documents w.
Proof.
  intros new_id Hv1 Hd1 Hexist Hchange Hsafe.
  assert (documents w1 !! new_id = Some (persisted_row w document)) as Hdoc
    by (by rewrite Hd1, lookup_insert_eq).
  destruct (persisted_impacts w (variants w1) new_id document) as (Hnd & Hget & Hkeys).
  { eapply Forall_impl; [exact Hexist|]. intros item [row Hrow]. simpl.
    rewrite Hv1, Hrow. by eexists. }
  destruct (delete_document_run new_id w1 _ Hdoc) as (w2 & n & Hcase).
  set (impacts := compute_impacts _) in *.
  destruct Hcase as [(entry & vrow & _ & Hin & Hrow1 & Hshort & _)
                    |(Hrun2 & _ & Hv2 & Hd2 & _)].
  - exfalso. destruct entry as [k c]. destruct Hshort as (Hneg & vrow' & Hrow' & Hlt).
    simpl in *. simplify_eq.
    pose proof (dict_get_elem _ _ _ Hnd Hin) as Hc. rewrite Hget, Hchange in Hc.
    rewrite Hv1 in Hrow1.
    destruct (variants w !! k) as [row|] eqn:Hk; simplify_eq/=.
    destruct (Hsafe k row Hk); lia.
  - exists w2. split_and!; try done.
    + apply map_eq. intros k. rewrite Hv2, Hv1, Hget, Hchange.
      destruct (variants w !! k) as [row|]; simpl; [|done].
      rewrite row_add_stock_add, Z.add_opp_diag_r. by rewrite row_add_stock_0.
    + rewrite Hd2, Hd1, delete_insert_eq. apply delete_id, next_rowid_fresh.
Qed.

(** X8. Creating an accepted OUTBOUND document whose quantities are not
    negative and then deleting it brings the store back: both calls
    return, every variant has the row it had before and the document is
    gone.  The deletion is not refused even when the outbound document
    itself left a stock below zero. *)
Theorem outbound_then_delete_restores_stock (document : Document.t) (w : World) :
  Document.doc_type document = "OUTBOUND" →
  Forall (λ item, ¬ offending (variants w) item) (Document.items document) →
  Forall (λ item, 0 ≤ DocumentItem.quantity item) (Document.items document) →
  let new_id := document_repo.next_rowid (document_repo.document_rowids w) in
  ∃ w1 w2,
    create_outbound_order document w = (w1, Returned (Document.set_id new_id document)) ∧
    delete_document new_id w1 = (w2, Returned tt) ∧
    variants w2 = variants w ∧ documents w2 = documents w.
Proof.
  intros Hty Hpass Hq new_id.
  destruct (create_outbound_order_accepted document w Hty Hpass) as (w1 & Hrun1 & Hv1 & Hd1).
  destruct (delete_undoes w w1 document
              (λ k, - net_quantity k (Document.items document)))
    as (w2 & Hrun2 & Hv2 & Hd2); try done.
  - eapply Forall_impl; [exact Hpass|]. intros item Hok. unfold offending in Hok.
    by destruct (variants w !! DocumentItem.variant_id item).
  - intros k. rewrite net_change_quantity, Hty. simpl. lia.
  - intros k row _. right. pose proof (net_quantity_nonneg k _ Hq). lia.
  - by exists w1, w2.
Qed.

Lemma outbound_then_delete_witness :
  ∃ w1 w2,
    create_outbound_order (sample.doc "OUTBOUND" [sample.line 1 2]) (sample.store 2) =
      (w1, Returned (Document.set_id 1 (sample.doc "OUTBOUND" [sample.line 1 2]))) ∧
    delete_document 1 w1 = (w2, Returned tt) ∧
    variants w2 = variants (sample.store 2).
Proof.
  destruct (outbound_then_delete_restores_stock
              (sample.doc "OUTBOUND" [sample.line 1 2]) (sample.store 2))
    as (w1 & w2 & Hrun1 & Hrun2 & Hv & _).
  - reflexivity.
  - apply Forall_cons. split; [|apply Forall_nil_2]. vm_compute. discriminate.
  - apply Forall_cons. split; [|apply Forall_nil_2]. vm_compute. discriminate.
  - by exists w1, w2.
Defined.

(** X9. Creating an ADJUST document that goes through, on variants that exist
    in a store with no negative stock, and then deleting it brings the
    store back: both calls return, every variant has the row it had
    before and the document is gone. *)
Theorem adjustment_then_delete_restores_stock (document : Document.t) (w : World) :
  Document.doc_type document = "ADJUST" →
  stock_nonnegative (variants w) →
  Forall (λ item, is_Some (variants w !! DocumentItem.variant_id item))
    (Document.items document) →
  adjust_passes (variants w) (Document.items document) →
  let new_id := document_repo.next_rowid (document_repo.document_rowids w) in
  ∃ w1 w2,
    create_adjustment_order document w =
      (w1, Returned (Document.set_id new_id document)) ∧
    delete_document new_id w1 = (w2, Returned tt) ∧
    variants w2 = variants w ∧ documents w2 = documents w.
Proof.
  intros Hty Hnn Hexist Hpass new_id.
  destruct (create_adjustment_order_run document w Hty) as (w1 & cs & Hrun1 & Hv1 & Hd1 & _).
  destruct (adjust_rows_pass _ _ Hpass) as [Ho Hk].
  rewrite Ho in Hrun1.
  destruct (delete_undoes w w1 document (λ k, net_quantity k (Document.items document)))
    as (w2 & Hrun2 & Hv2 & Hd2); try done.
  - intros k. by rewrite Hv1, Hk.
  - intros k. rewrite net_change_quantity, Hty. reflexivity.
  - intros k row Hrow. left. by apply (Hnn k).
  - by exists w1, w2.
Qed.

Lemma adjustment_then_delete_witness :
  ∃ w1 w2,
    create_adjustment_order (sample.doc "ADJUST" [sample.line 1 (-2)]) (sample.store 10) =
      (w1, Returned (Document.set_id 1 (sample.doc "ADJUST" [sample.line 1 (-2)]))) ∧
    delete_document 1 w1 = (w2, Returned tt) ∧
    variants w2 = variants (sample.store 10).
Proof.
  destruct (adjustment_then_delete_restores_stock
              (sample.doc "ADJUST" [sample.line 1 (-2)]) (sample.store 10))
    as (w1 & w2 & Hrun1 & Hrun2 & Hv & _).
  - reflexivity.
  - intros k row Hrow. destruct (decide (k = 1)) as [->|Hne].
    + vm_compute in Hrow. injection Hrow as <-. vm_compute. discriminate.
    + unfold sample.store in Hrow. simpl in Hrow.
      by rewrite lookup_singleton_ne in Hrow.
  - apply Forall_cons. split; [by eexists|apply Forall_nil_2].
  - intros pre item post row Hsplit Hrow.
    destruct pre as [|x [|y pre]]; simplify_eq/=.
    vm_compute in Hrow. simplify_eq. vm_compute. discriminate.
  - by exists w1, w2.
Defined.

(** ** What the engine raises *)




(** ** Reading a document back *)

Lemma joined_item_rows (vs : gmap Z VariantRow) items : ∀ n,
  (λ item, (DocumentItem.variant_id item, DocumentItem.quantity item)) <$>
    (document_repo.item_of_row <$>
       filter (λ r, is_Some (vs !! item_variant_id r)) (document_repo.item_rows n items)) =
  (λ item, (DocumentItem.variant_id item, DocumentItem.quantity item)) <$>
    filter (λ item, is_Some (vs !! DocumentItem.variant_id item)) items.
Proof.
  induction items as [|item rest IH]; intros n; [done|].
  simpl document_repo.item_rows. rewrite !filter_cons. simpl.
  destruct (decide (is_Some (vs !! DocumentItem.variant_id item))).
  - rewrite !fmap_cons. simpl. f_equal. apply IH.
  - apply IH.
Qed.

Lemma item_rows_ids_ge items : ∀ n r,
  r ∈ document_repo.item_rows n items → n ≤ item_rowid r.
Proof.
  induction items as [|item rest IH]; intros n r Hin; simpl in Hin.
  - by apply elem_of_nil in Hin.
  - apply elem_of_cons in Hin as [->|Hin]; simpl; [lia|].
    specialize (IH _ _ Hin). lia.
Qed.

Lemma item_rows_NoDup items : ∀ n,
  NoDup (item_rowid <$> document_repo.item_rows n items).
Proof.
  induction items as [|item rest IH]; intros n; simpl; [apply NoDup_nil_2|].
  apply NoDup_cons. split; [|apply IH].
  intros Hin. apply list_elem_of_fmap in Hin as (r & Hr & Hin).
  apply item_rows_ids_ge in Hin. lia.
Qed.

Lemma NoDup_fmap_filter {A B} (f : A → B) (P : A → Prop) `{∀ x, Decision (P x)} l :
  NoDup (f <$> l) → NoDup (f <$> filter P l).
Proof.
  induction l as [|x l IH]; [done|].
  rewrite fmap_cons, NoDup_cons. intros [Hnotin Hnd].
  rewrite filter_cons. destruct (decide (P x)); [|by apply IH].
  rewrite fmap_cons. apply NoDup_cons. split; [|by apply IH].
  intros Hin. apply Hnotin.
  apply list_elem_of_fmap in Hin as (y & -> & Hy).
  apply list_elem_of_filter in Hy as [_ Hy].
  apply list_elem_of_fmap. by exists y.
Qed.

(** X11. [add_document] followed by [get_document_by_id] (what
    [get_document_detail] calls) on the identifier that was assigned: the
    document comes back with that identifier, its type and its note, and
    with its lines in order (variant and quantity), except the lines
    whose variant is not in the store, which the join leaves out.  Each
    line that comes back has an id of its own: the ids are pairwise
    distinct and none is the id of an item row that was stored before.
    Neither table changes by the read. *)
Theorem stored_document_is_read_back (document : Document.t) (w : World) :
  let new_id := document_repo.next_rowid (document_repo.document_rowids w) in
  ∃ w1 w2 d,
    document_repo.add_document document w =
      (w1, Returned (Document.set_id new_id document)) ∧
    get_document_detail new_id w1 = (w2, Returned (Some d)) ∧
    variants w2 = variants w ∧ documents w2 = documents w1 ∧
    Document.id d = Some new_id ∧
    Document.doc_type d = Document.doc_type document ∧
    Document.note d = Document.note document ∧
    (λ item, (DocumentItem.variant_id item, DocumentItem.quantity item))
      <$> Document.items d =
    (λ item, (DocumentItem.variant_id item, DocumentItem.quantity item)) <$>
      filter (λ item, is_Some (variants w !! DocumentItem.variant_id item))
        (Document.items document) ∧
    NoDup (DocumentItem.id <$> Document.items d) ∧
    Forall (λ item, ∃ i, DocumentItem.id item = Some i ∧
                         i ∉ document_repo.item_rowids w)
      (Document.items d).
Proof.
  intros new_id.
  unfold get_document_detail.
  eexists _, _, _. split; [reflexivity|].
  rewrite get_document_by_id_run. simpl. rewrite lookup_insert_eq. simpl.
  split; [reflexivity|]. simpl. split_and!; try done.
  - apply joined_item_rows.
  - rewrite <- list_fmap_compose.
    change (DocumentItem.id ∘ document_repo.item_of_row)
      with (λ r, Some (item_rowid r)).
    rewrite (list_fmap_compose item_rowid Some).
    apply NoDup_fmap_2; [apply _|].
    apply NoDup_fmap_filter, item_rows_NoDup.
  - apply Forall_fmap, Forall_forall. intros r Hr. simpl.
    exists (item_rowid r). split; [done|].
    apply list_elem_of_filter in Hr as [_ Hr].
    apply item_rows_ids_ge in Hr. intros Hused.
    apply foldr_max_ge in Hused.
    unfold document_repo.next_rowid, document_repo.item_rowids in *.
    simpl in Hr. lia.
Qed.

(** ** Listing documents *)

Lemma listed_before_total : Total document_repo.listed_before.
Proof. intros [k1 r1] [k2 r2]. unfold document_repo.listed_before. simpl. lia. Qed.

Lemma listed_before_trans : Transitive document_repo.listed_before.
Proof.
  intros [k1 r1] [k2 r2] [k3 r3]. unfold document_repo.listed_before. simpl. lia.
Qed.

(** X12. [get_documents] lists exactly the stored documents, or those of the
    type asked for ([None] and the empty string ask for all), each once
    and as a header: the list carries no items.  The list runs from the
    latest date to the earliest and, within a date, from the largest id
    to the smallest. *)
Theorem documents_are_listed_newest_first (w : World) (doc_type : option string) :
  let listed := get_documents w doc_type in
  (∀ d, d ∈ listed ↔
        ∃ k row, documents w !! k = Some row ∧
                 (∀ t, doc_type = Some t → t ≠ "" → row_doc_type row = t) ∧
                 d = document_repo._map_row_to_document k row) ∧
  Forall (λ d, Document.items d = []) listed ∧
  NoDup (Document.id <$> listed) ∧
  StronglySorted newer_first listed.
Proof.
  intros listed. unfold listed, get_documents, document_repo.get_all_documents.
  set (rows := merge_sort document_repo.listed_before
                 (filter (λ kv, document_repo.selected doc_type kv.2)
                    (map_to_list (documents w)))).
  assert (∀ kv, kv ∈ rows ↔
                documents w !! kv.1 = Some kv.2 ∧
                ∀ t, doc_type = Some t → t ≠ "" → row_doc_type kv.2 = t) as Hrows.
  { intros kv. unfold rows. rewrite merge_sort_Permutation, list_elem_of_filter.
    rewrite elem_of_map_to_list'. unfold document_repo.selected.
    destruct doc_type as [t|]; split.
    - intros [[->|Hty] Hkv]; (split; [done|]); intros t' [= <-] Hne; done.
    - intros [Hkv Hty]. split; [|done].
      destruct (decide (t = "")); [by left|right; by apply Hty].
    - intros [_ Hkv]. split; [done|]. intros t [=].
    - intros [Hkv _]. done. }
  assert (NoDup rows) as Hnd.
  { unfold rows. rewrite merge_sort_Permutation.
    apply NoDup_filter, NoDup_map_to_list. }
  split_and!.
  - intros d. rewrite list_elem_of_fmap. split.
    + intros ([k row] & -> & Hin). apply Hrows in Hin as [Hk Hty]. by exists k, row.
    + intros (k & row & Hk & Hty & ->). exists (k, row). split; [done|].
      by apply Hrows.
  - apply Forall_fmap, Forall_forall. by intros [k row] _.
  - rewrite <- list_fmap_compose. apply NoDup_fmap_2_strong; [|done].
    intros [k1 r1] [k2 r2] H1 H2 Heq. simpl in Heq. injection Heq as <-.
    apply Hrows in H1 as [H1 _]. apply Hrows in H2 as [H2 _]. simpl in *.
    by simplify_eq.
  - pose proof listed_before_total. pose proof listed_before_trans.
    eapply StronglySorted_fmap; [|apply StronglySorted_merge_sort; apply _].
    intros [k1 r1] [k2 r2] Hb. unfold document_repo.listed_before in Hb.
    unfold newer_first. simpl in *.
    destruct Hb as [?|(? & [?|(? & [?|(? & ?)])])]; [by left| | |].
    + right. split; [done|]. by left.
    + right. split; [done|]. right. split; [done|]. by left.
    + right. split; [done|]. right. split; [done|]. right. split; [done|].
      by exists k1, k2.
Qed.

(** ** The low-stock report *)

Lemma elem_of_get_all_products (products : gmap Z ProductRow) product :
  product ∈ product_repo.get_all_products products ↔
  ∃ i row, products !! i = Some row ∧ product = product_repo._map_row_to_product i row.
Proof.
  unfold product_repo.get_all_products. rewrite list_elem_of_fmap. split.
  - intros ([i row] & -> & Hin). rewrite merge_sort_Permutation in Hin.
    apply elem_of_map_to_list in Hin. by exists i, row.
  - intros (i & row & Hi & ->). exists (i, row). split; [done|].
    rewrite merge_sort_Permutation. by apply elem_of_map_to_list.
Qed.

Lemma elem_of_get_variants_by_product_id (vs : gmap Z VariantRow) product_id v :
  v ∈ product_repo.get_variants_by_product_id vs product_id ↔
  ∃ k row, vs !! k = Some row ∧ row_product_id row = product_id ∧
           v = product_repo._map_row_to_variant k row.
Proof.
  unfold product_repo.get_variants_by_product_id. rewrite list_elem_of_fmap. split.
  - intros ([k row] & -> & Hin). apply list_elem_of_filter in Hin as [Hp Hin].
    rewrite merge_sort_Permutation in Hin. apply elem_of_map_to_list in Hin.
    by exists k, row.
  - intros (k & row & Hk & Hp & ->). exists (k, row). split; [done|].
    apply list_elem_of_filter. split; [done|].
    rewrite merge_sort_Permutation. by apply elem_of_map_to_list.
Qed.

Lemma NoDup_get_variants_by_product_id (vs : gmap Z VariantRow) product_id :
  NoDup (product_repo.get_variants_by_product_id vs product_id).
Proof.
  unfold product_repo.get_variants_by_product_id.
  apply NoDup_fmap_2_strong.
  - intros [k1 r1] [k2 r2] _ _ Heq. unfold product_repo._map_row_to_variant in Heq.
    destruct r1, r2. cbn in Heq. by inversion Heq.
  - apply NoDup_filter. rewrite merge_sort_Permutation. apply NoDup_map_to_list.
Qed.

Lemma NoDup_get_all_products (products : gmap Z ProductRow) :
  NoDup (product_repo.get_all_products products).
Proof.
  unfold product_repo.get_all_products. apply NoDup_fmap_2_strong.
  - intros [k1 r1] [k2 r2] _ _ Heq. unfold product_repo._map_row_to_product in Heq.
    destruct r1, r2. cbn in Heq. by inversion Heq.
  - rewrite merge_sort_Permutation. apply NoDup_map_to_list.
Qed.

(** X13. [get_low_stock_variants] reports exactly the variants whose stock is
    at or below their safety stock and whose product is in the products
    table, each of them once; a variant above its safety stock is never
    reported. *)
Theorem low_stock_report_is_exact (products : gmap Z ProductRow) (w : World) :
  let report := get_low_stock_variants products w in
  (∀ v, v ∈ report ↔
        ∃ k row, variants w !! k = Some row ∧
                 v = product_repo._map_row_to_variant k row ∧
                 is_Some (products !! row_product_id row) ∧
                 row_stock_qty row ≤ row_safety_stock row) ∧
  NoDup report.
Proof.
  intros report. unfold report, get_low_stock_variants. split.
  - intros v. rewrite list_elem_of_bind. split.
    + intros (product & Hv & Hp).
      apply elem_of_get_all_products in Hp as (i & prow & Hi & ->). simpl in Hv.
      apply list_elem_of_filter in Hv as [Hlow Hv].
      apply elem_of_get_variants_by_product_id in Hv as (k & row & Hk & Hpid & ->).
      exists k, row. split_and!; try done.
      * rewrite Hpid. by eexists.
      * unfold Variant.is_low_stock in Hlow. simpl in Hlow.
        by apply bool_decide_eq_true in Hlow.
    + intros (k & row & Hk & -> & [prow Hp] & Hlow).
      exists (product_repo._map_row_to_product (row_product_id row) prow). split.
      * simpl. apply list_elem_of_filter. split.
        -- unfold Variant.is_low_stock. simpl. by apply bool_decide_eq_true.
        -- apply elem_of_get_variants_by_product_id. by exists k, row.
      * apply elem_of_get_all_products. by exists (row_product_id row), prow.
  - apply NoDup_bind.
    + intros p1 p2 v Hp1 Hp2 Hv1 Hv2.
      apply elem_of_get_all_products in Hp1 as (i1 & prow1 & Hi1 & ->).
      apply elem_of_get_all_products in Hp2 as (i2 & prow2 & Hi2 & ->).
      simpl in Hv1, Hv2.
      apply list_elem_of_filter in Hv1 as [_ Hv1].
      apply list_elem_of_filter in Hv2 as [_ Hv2].
      apply elem_of_get_variants_by_product_id in Hv1 as (k1 & r1 & _ & Hpid1 & ->).
      apply elem_of_get_variants_by_product_id in Hv2 as (k2 & r2 & _ & Hpid2 & Heq).
      assert (row_product_id r1 = row_product_id r2) as Hpid
        by (by injection Heq).
      assert (i1 = i2) as -> by congruence. by simplify_eq.
    + intros product _. apply NoDup_filter.
      destruct (Product.id product); [apply NoDup_get_variants_by_product_id|].
      apply NoDup_nil_2.
    + apply NoDup_get_all_products.
Qed.

(** ** Listing products and variants *)

Lemma id_desc_total {A} : Total (@product_repo.id_desc A).
Proof. intros [k1 r1] [k2 r2]. unfold product_repo.id_desc. simpl. lia. Qed.

Lemma id_desc_trans {A} : Transitive (@product_repo.id_desc A).
Proof. intros [k1 r1] [k2 r2] [k3 r3]. unfold product_repo.id_desc. simpl. lia. Qed.

(** X14. [get_all_products] lists exactly the rows of the products table,
    each once and with its id, from the largest id to the smallest. *)
Theorem products_are_listed_by_descending_id (products : gmap Z ProductRow) :
  let listed := get_all_products products in
  (∀ product, product ∈ listed ↔
     ∃ i row, products !! i = Some row ∧
              product = product_repo._map_row_to_product i row) ∧
  NoDup (Product.id <$> listed) ∧
  length listed = size products ∧
  StronglySorted larger_id_first listed.
Proof.
  intros listed. unfold listed, get_all_products. split_and!.
  - apply elem_of_get_all_products.
  - unfold product_repo.get_all_products. rewrite <- list_fmap_compose.
    apply NoDup_fmap_2_strong.
    + intros [k1 r1] [k2 r2] H1 H2 Heq. simpl in Heq. injection Heq as <-.
      rewrite merge_sort_Permutation in H1, H2.
      apply elem_of_map_to_list in H1, H2. by simplify_eq.
    + rewrite merge_sort_Permutation. apply NoDup_map_to_list.
  - unfold product_repo.get_all_products.
    by rewrite length_fmap, merge_sort_Permutation, length_map_to_list.
  - unfold product_repo.get_all_products.
    pose proof (@id_desc_total ProductRow). pose proof (@id_desc_trans ProductRow).
    eapply StronglySorted_fmap; [|apply StronglySorted_merge_sort; apply _].
    intros [k1 r1] [k2 r2] Hb. by exists k1, k2.
Qed.

(** X15. [get_variants_for_product] lists exactly the variants whose
    [product_id] is the one asked for, each once and with its id; for a
    product with no variant, or an id that is no product's, the list is
    empty. *)
Theorem variants_of_a_product_are_listed (w : World) (product_id : Z) :
  let listed := get_variants_for_product w product_id in
  (∀ v, v ∈ listed ↔
     ∃ k row, variants w !! k = Some row ∧ row_product_id row = product_id ∧
              v = product_repo._map_row_to_variant k row) ∧
  NoDup (Variant.id <$> listed) ∧
  Forall (λ v, Variant.product_id v = product_id) listed ∧
  ((∀ k row, variants w !! k = Some row → row_product_id row ≠ product_id) →
   listed = []).
Proof.
  intros listed. unfold listed, get_variants_for_product. split_and!.
  - apply elem_of_get_variants_by_product_id.
  - unfold product_repo.get_variants_by_product_id. rewrite <- list_fmap_compose.
    apply NoDup_fmap_2_strong.
    + intros [k1 r1] [k2 r2] H1 H2 Heq. simpl in Heq. injection Heq as <-.
      apply list_elem_of_filter in H1 as [_ H1]. apply list_elem_of_filter in H2 as [_ H2].
      rewrite merge_sort_Permutation in H1, H2.
      apply elem_of_map_to_list in H1, H2. by simplify_eq.
    + apply NoDup_filter. rewrite merge_sort_Permutation. apply NoDup_map_to_list.
  - apply Forall_forall. intros v Hv.
    apply elem_of_get_variants_by_product_id in Hv as (k & row & _ & Hp & ->). done.
  - intros Hnone.
    destruct (product_repo.get_variants_by_product_id (variants w) product_id)
      as [|v l] eqn:E; [done|]. exfalso.
    assert (v ∈ product_repo.get_variants_by_product_id (variants w) product_id) as Hv
      by (rewrite E; apply elem_of_cons; by left).
    apply elem_of_get_variants_by_product_id in Hv as (k & row & Hk & Hp & _).
    by apply (Hnone k row).
Qed.

(** ** What the engine changes *)

Lemma only_stock_changed_refl vs : only_stock_changed vs vs.
Proof.
  intros k. exists 0. destruct (vs !! k); simpl; [|done]. by rewrite row_add_stock_0.
Qed.

Lemma adjust_rows_only_stock items : ∀ vs,
  only_stock_changed vs (adjust_rows vs items).1.
Proof.
  induction items as [|item rest IH]; intros vs; [apply only_stock_changed_refl|].
  simpl. destruct (vs !! DocumentItem.variant_id item) as [row|] eqn:Hi; [|apply IH].
  destruct (decide _); [apply only_stock_changed_refl|].
  intros k. destruct (IH (<[DocumentItem.variant_id item :=
                             row_add_stock (DocumentItem.quantity item) row]> vs) k)
    as [d Hd].
  rewrite Hd. destruct (decide (DocumentItem.variant_id item = k)) as [<-|Hne].
  - exists (DocumentItem.quantity item + d).
    rewrite lookup_insert_eq, Hi. simpl. by rewrite row_add_stock_add.
  - exists d. by rewrite lookup_insert_ne.
Qed.

(** X16. The four operations change nothing of the variants table but stock
    quantities: on every input, and whether they return or raise, no
    variant is added or removed and every variant keeps its product, size,
    colour, SKU and safety stock. *)
Theorem engine_changes_only_stock :
  (∀ document w,
     only_stock_changed (variants w)
       (variants (world_of (create_inbound_order document w)))) ∧
  (∀ document w,
     only_stock_changed (variants w)
       (variants (world_of (create_outbound_order document w)))) ∧
  (∀ document w,
     only_stock_changed (variants w)
       (variants (world_of (create_adjustment_order document w)))) ∧
  (∀ doc_id w,
     only_stock_changed (variants w)
       (variants (world_of (delete_document doc_id w)))).
Proof.
  split_and!.
  - intros document w.
    destruct (decide (Document.doc_type document = "INBOUND")) as [Hty|Hty].
    + destruct (create_inbound_order_run document w Hty) as (w' & Hrun & Hv & _).
      rewrite Hrun. intros k. eexists. apply Hv.
    + unfold create_inbound_order. rewrite decide_True by done.
      apply only_stock_changed_refl.
  - intros document w.
    destruct (decide (Document.doc_type document = "OUTBOUND")) as [Hty|Hty].
    + destruct (decide (Exists (offending (variants w)) (Document.items document)))
        as [Hex|Hnex].
      * destruct (precheck_loop_fails _ w Hex)
          as (w' & item & n & Hrun & _ & _ & [Hv _] & _).
        unfold create_outbound_order. rewrite decide_False by (by intros []).
        unfold bind at 1. rewrite Hrun. simpl. rewrite Hv.
        apply only_stock_changed_refl.
      * apply not_offending_Forall in Hnex.
        destruct (create_outbound_order_accepted document w Hty Hnex)
          as (w' & Hrun & Hv & _).
        rewrite Hrun. intros k. eexists. apply Hv.
    + unfold create_outbound_order. rewrite decide_True by done.
      apply only_stock_changed_refl.
  - intros document w.
    destruct (decide (Document.doc_type document = "ADJUST")) as [Hty|Hty].
    + destruct (create_adjustment_order_run document w Hty) as (w' & cs & Hrun & Hv & _).
      rewrite Hrun. simpl. rewrite Hv. apply adjust_rows_only_stock.
    + unfold create_adjustment_order. rewrite decide_True by done.
      apply only_stock_changed_refl.
  - intros doc_id w.
    destruct (documents w !! doc_id) as [row|] eqn:Hdoc.
    + destruct (delete_document_run doc_id w row Hdoc) as (w' & n & Hcase).
      destruct Hcase as [(entry & vrow & Hrun & _ & _ & _ & [Hv _] & _)
                        |(Hrun & _ & Hv & _)]; rewrite Hrun; simpl.
      * rewrite Hv. apply only_stock_changed_refl.
      * intros k. eexists. apply Hv.
    + unfold delete_document, bind. rewrite get_document_by_id_run, Hdoc.
      apply only_stock_changed_refl.
Qed.

(** ** When a receipt can be deleted *)

(** X17. In a store with no negative stock, a stored INBOUND or ADJUST
    document can be deleted exactly when every variant still holds at
    least what the document's items on it add up to; otherwise the
    deletion raises. *)
Theorem deletable_iff_stock_covers_it (doc_id : Z) (w : World) (row : DocumentRow) :
  documents w !! doc_id = Some row →
  row_doc_type row = "INBOUND" ∨ row_doc_type row = "ADJUST" →
  stock_nonnegative (variants w) →
  (∃ w', delete_document doc_id w = (w', Returned tt)) ↔
  (∀ k vrow, variants w !! k = Some vrow →
     net_quantity k (document_repo.item_of_row <$> row_items row) ≤ row_stock_qty vrow).
Proof.
  intros Hdoc Hty Hnn.
  destruct (delete_document_run doc_id w row Hdoc) as (w' & n & Hcase).
  set (impacts := compute_impacts (fetched (variants w) doc_id row)) in *.
  assert (NoDup impacts.*1) as Hnd.
  { unfold impacts. rewrite compute_impacts_foldl. apply impacts_NoDup, NoDup_nil_2. }
  assert (∀ k, is_Some (variants w !! k) →
               dict_get impacts k 0 =
               - net_quantity k (document_repo.item_of_row <$> row_items row)) as Hget.
  { intros k Hk. unfold impacts. rewrite compute_impacts_foldl, impacts_get. simpl.
    rewrite net_change_quantity, joined_net_quantity by done.
    destruct Hty as [-> | ->]; reflexivity. }
  split.
  - intros (w2 & Hrun) k vrow Hk.
    destruct Hcase as [(entry & vrow' & Hrun' & _)|(_ & Hall & _)];
      [by rewrite Hrun in Hrun'|].
    destruct (decide (net_quantity k (document_repo.item_of_row <$> row_items row)
                      ≤ row_stock_qty vrow)) as [|Hgt]; [done|].
    exfalso. specialize (Hnn k vrow Hk).
    pose proof (Hget k (ex_intro _ vrow Hk)) as Hc.
    assert ((k, dict_get impacts k 0) ∈ impacts) as Hin by (apply dict_get_in; lia).
    rewrite Forall_forall in Hall. apply (Hall _ Hin).
    split; [simpl; lia|]. exists vrow. split; [done|]. simpl. lia.
  - intros Hcover.
    destruct Hcase as [(entry & vrow & _ & Hin & Hrow & Hshort & _)|(Hrun & _)];
      [|by exists w'].
    exfalso. destruct entry as [k c]. destruct Hshort as (Hneg & vrow' & Hrow' & Hlt).
    simpl in *. simplify_eq.
    pose proof (dict_get_elem _ _ _ Hnd Hin) as Hc.
    rewrite (Hget k (ex_intro _ vrow Hrow)) in Hc.
    specialize (Hcover k vrow Hrow). lia.
Qed.

Lemma deletable_iff_stock_covers_it_witness :
  ¬ ∃ w', delete_document 1
            (mk_world {[ 1 := sample.shoe 3 ]}
               {[ 1 := mk_document_row "INBOUND" (mk_date 2026 1 7) "" None
                         [mk_item_row 1 1 5 (S754_zero false)] ]} [] []) =
            (w', Returned tt).
Proof.
  intros Hret.
  destruct (deletable_iff_stock_covers_it 1
              (mk_world {[ 1 := sample.shoe 3 ]}
                 {[ 1 := mk_document_row "INBOUND" (mk_date 2026 1 7) "" None
                           [mk_item_row 1 1 5 (S754_zero false)] ]} [] [])
              (mk_document_row "INBOUND" (mk_date 2026 1 7) "" None
                 [mk_item_row 1 1 5 (S754_zero false)]))
    as [Hcover _].
  - reflexivity.
  - by left.
  - intros k vrow Hrow. simpl in Hrow. destruct (decide (k = 1)) as [->|Hne].
    + vm_compute in Hrow. injection Hrow as <-. vm_compute. discriminate.
    + by rewrite lookup_singleton_ne in Hrow.
  - specialize (Hcover Hret 1 (sample.shoe 3) eq_refl). vm_compute in Hcover.
    by apply Hcover.
Defined.

(** ** The listings on sample tables *)

Lemma documents_are_listed_witness :
  Forall (λ d, Document.items d = [])
    (get_documents
       (mk_world ∅
          {[ 1 := mk_document_row "INBOUND" (mk_date 2026 1 7) "" None
                    [mk_item_row 1 1 5 (S754_zero false)];
             2 := mk_document_row "OUTBOUND" (mk_date 2026 1 9) "" None [] ]} [] [])
       (Some "INBOUND")).
Proof.
  destruct (documents_are_listed_newest_first
              (mk_world ∅
                 {[ 1 := mk_document_row "INBOUND" (mk_date 2026 1 7) "" None
                           [mk_item_row 1 1 5 (S754_zero false)];
                    2 := mk_document_row "OUTBOUND" (mk_date 2026 1 9) "" None [] ]} [] [])
              (Some "INBOUND")) as (_ & Hheaders & _).
  exact Hheaders.
Defined.

Lemma low_stock_report_witness :
  product_repo._map_row_to_variant 1 (sample.shoe 5) ∈
    get_low_stock_variants
      {[ 1 := mk_product_row "Air Zoom" "Nike" None (S754_zero false) "" None ]}
      (sample.store 5).
Proof.
  destruct (low_stock_report_is_exact
              {[ 1 := mk_product_row "Air Zoom" "Nike" None (S754_zero false) "" None ]}
              (sample.store 5)) as [Hin _].
  apply Hin. exists 1, (sample.shoe 5). split_and!; [done|done|by eexists|done].
Defined.

Lemma products_are_listed_witness :
  length (get_all_products
            {[ 1 := mk_product_row "Air Zoom" "Nike" None (S754_zero false) "" None ]}) = 1%nat.
Proof.
  destruct (products_are_listed_by_descending_id
              {[ 1 := mk_product_row "Air Zoom" "Nike" None (S754_zero false) "" None ]})
    as (_ & _ & Hlen & _).
  rewrite Hlen. reflexivity.
Defined.

Lemma variants_of_a_product_witness :
  get_variants_for_product (sample.store 5) 2 = [].
Proof.
  destruct (variants_of_a_product_are_listed (sample.store 5) 2) as (_ & _ & _ & Hnone).
  apply Hnone. intros k row Hrow. simpl in Hrow.
  destruct (decide (k = 1)) as [->|Hne].
  - vm_compute in Hrow. injection Hrow as <-. vm_compute. discriminate.
  - by rewrite lookup_singleton_ne in Hrow.
Defined.
